(** * A shallow embedding of the weather front end ([src/main.py])

    The program is a Flask application: a view fetches JSON from the
    weather provider with [requests.get], possibly appends one row to the
    [weather] table of a SQLite file, and answers with a JSON envelope, a
    plain string or a rendered template; one view reads the table back.

    The embedding follows the source line by line:
    - values decoded by [resp.json()] / [request.get_json()] are terms of
      the type [json]; the Python operations the handlers apply to them
      (subscripting, [dict.get], [or], slicing, [str.split], [str.strip],
      [min], [max]) are functions that return a value or raise;
    - [try ... except Exception] is a catch in a small state-and-exception
      monad whose state holds the database and the log of provider calls;
    - the provider, the clock, the template engine and the text of
      exception messages are the environment [Env] of a handler.

    What the model takes for granted:
    - a JSON number is an [int] or a [float]; Python compares the two
      kinds exactly, by value, so a finite float is represented by the
      rational it denotes (the views only compare and copy temperatures,
      they never compute with them), and the three floats that are not
      finite, which the decoder accepts as [NaN], [Infinity] and
      [-Infinity], are values of their own;
    - the characters of a string are code points below 256;
    - the database file can be opened, written and closed: an INSERT fails
      only when [sqlite3] refuses to bind a value, and rowids stay below
      the 64-bit limit.

    The form page [index] fetches nothing and writes nothing; it comes
    with the requests, after the views. *)

From Stdlib Require Import List String Ascii Bool Arith ZArith QArith Lia.
From Stdlib Require Import Sorting.Sorted Permutation.
Import ListNotations.

Set Warnings "-register-all".

Local Close Scope Q_scope.
Local Open Scope string_scope.
Local Open Scope list_scope.

(* ================================================================== *)
(** ** Exceptions and results *)

(** The exceptions the handlers can meet.  [str_exn] of the environment
    gives their message text. *)
Inductive exn : Type :=
| KeyError (key : string)
| IndexError
| TypeError
| AttributeError
| OverflowError
| BindError                        (* sqlite3: unsupported parameter type *)
| JSONDecodeError
| RequestException (detail : string) (* connection failure, timeout, ... *)
| TemplateError (detail : string)
| BadRequest.                      (* werkzeug's 400, raised by get_json *)

Inductive exc (A : Type) : Type :=
| Ok (a : A)
| Raise (e : exn).
Arguments Ok {A} a.
Arguments Raise {A} e.

Definition exc_bind {A B} (m : exc A) (k : A -> exc B) : exc B :=
  match m with
  | Ok a => k a
  | Raise e => Raise e
  end.

Declare Scope exc_scope.
Delimit Scope exc_scope with exc.
Notation "x <- m ;; k" := (exc_bind m (fun x => k))
  (at level 61, m at next level, right associativity) : exc_scope.

(* ================================================================== *)
(** ** JSON values as Python objects *)

(** The floats that are no rational: [float('nan')], [float('inf')],
    [float('-inf')]. *)
Inductive special : Type := NaN | PosInf | NegInf.

Inductive json : Type :=
| JNull                                   (* None *)
| JBool (b : bool)
| JInt (z : Z)                            (* int *)
| JFloat (q : Q)                          (* finite float, by value *)
| JStr (s : string)
| JArr (l : list json)                    (* list *)
| JObj (kv : list (string * json))        (* dict, in insertion order *)
| JSpecial (x : special).                 (* float that is not finite *)

(** Lookup in a dict kept as an association list.  A decoded object holds
    every key once. *)
Fixpoint lookup {V : Type} (k : string) (d : list (string * V)) : option V :=
  match d with
  | [] => None
  | (k', v) :: r => if String.eqb k k' then Some v else lookup k r
  end.

(** [d[k] = v] on an insertion-ordered dict: an existing key keeps its
    place, a new key goes last. *)
Fixpoint assign {V : Type} (k : string) (v : V) (d : list (string * V))
  : list (string * V) :=
  match d with
  | [] => [(k, v)]
  | (k', v') :: r =>
      if String.eqb k k' then (k', v) :: r else (k', v') :: assign k v r
  end.

(** [o[k]] with a string key. *)
Definition py_getitem (o : json) (k : string) : exc json :=
  match o with
  | JObj kv => match lookup k kv with
               | Some v => Ok v
               | None => Raise (KeyError k)
               end
  | _ => Raise TypeError
  end.

(** [o[0]]. *)
Definition py_getitem0 (o : json) : exc json :=
  match o with
  | JArr (x :: _) => Ok x
  | JArr [] => Raise IndexError
  | JStr (String c _) => Ok (JStr (String c EmptyString))
  | JStr EmptyString => Raise IndexError
  | JObj _ => Raise (KeyError "0")
  | _ => Raise TypeError
  end.

(** [o.get(k, default)]: only a dict has the method. *)
Definition py_get (o : json) (k : string) (default : json) : exc json :=
  match o with
  | JObj kv => match lookup k kv with
               | Some v => Ok v
               | None => Ok default
               end
  | _ => Raise AttributeError
  end.

(** Truth value of an object. *)
Definition py_truthy (o : json) : bool :=
  match o with
  | JNull => false
  | JBool b => b
  | JInt z => negb (z =? 0)%Z
  | JFloat q => negb (Qeq_bool q 0%Q)
  | JStr s => negb (String.eqb s "")
  | JArr l => match l with [] => false | _ => true end
  | JObj kv => match kv with [] => false | _ => true end
  | JSpecial _ => true
  end.

(** [a or b]. *)
Definition py_or (a b : json) : json := if py_truthy a then a else b.

(** [o[:n]]. *)
Definition py_slice_to (n : nat) (o : json) : exc json :=
  match o with
  | JArr l => Ok (JArr (firstn n l))
  | JStr s => Ok (JStr (substring 0 n s))
  | _ => Raise TypeError
  end.

(** The items a [for] loop visits. *)
Definition py_iter (o : json) : exc (list json) :=
  match o with
  | JArr l => Ok l
  | JStr s => Ok (map (fun c => JStr (String c EmptyString)) (list_ascii_of_string s))
  | JObj kv => Ok (map (fun p => JStr (fst p)) kv)
  | _ => Raise TypeError
  end.

(* ------------------------------------------------------------------ *)
(** *** Strings *)

(** [str.isspace] on one character (code points below 256). *)
Definition py_isspace (c : ascii) : bool :=
  let n := nat_of_ascii c in
  (((9 <=? n) && (n <=? 13)) || ((28 <=? n) && (n <=? 32))
   || (n =? 133) || (n =? 160))%nat.

(** [s.split()]: the maximal runs of non-space characters.  [cur] is the
    run being read. *)
Fixpoint split_ws (cur : string) (s : string) : list string :=
  match s with
  | EmptyString => if String.eqb cur "" then [] else [cur]
  | String c r =>
      if py_isspace c
      then (if String.eqb cur "" then split_ws "" r else cur :: split_ws "" r)
      else split_ws (cur ++ String c EmptyString) r
  end.

Definition str_split (s : string) : list string := split_ws "" s.

Fixpoint lstrip (s : string) : string :=
  match s with
  | EmptyString => EmptyString
  | String c r => if py_isspace c then lstrip r else s
  end.

Fixpoint rstrip (s : string) : string :=
  match s with
  | EmptyString => EmptyString
  | String c r =>
      let r' := rstrip r in
      if String.eqb r' "" && py_isspace c then EmptyString else String c r'
  end.

Definition str_strip (s : string) : string := rstrip (lstrip s).

(** [o.split()] and [o.strip()]: only a [str] has the methods. *)
Definition py_split (o : json) : exc (list string) :=
  match o with
  | JStr s => Ok (str_split s)
  | _ => Raise AttributeError
  end.

Definition py_strip (o : json) : exc string :=
  match o with
  | JStr s => Ok (str_strip s)
  | _ => Raise AttributeError
  end.

(** [l[0]] on the list [split] returns. *)
Definition first_token (l : list string) : exc string :=
  match l with
  | x :: _ => Ok x
  | [] => Raise IndexError
  end.

(* ------------------------------------------------------------------ *)
(** *** Comparison, [min] and [max] *)

(** The value of a [bool], [int] or [float] object: a rational, an
    infinity, or not a number. *)
Inductive xnum : Type :=
| XFin (q : Q)
| XNegInf
| XPosInf
| XNaN.

Definition xval (o : json) : option xnum :=
  match o with
  | JBool b => Some (XFin (if b then 1%Q else 0%Q))
  | JInt z => Some (XFin (inject_Z z))
  | JFloat q => Some (XFin q)
  | JSpecial NaN => Some XNaN
  | JSpecial PosInf => Some XPosInf
  | JSpecial NegInf => Some XNegInf
  | _ => None
  end.

Definition Qltb (p q : Q) : bool :=
  match (p ?= q)%Q with Lt => true | _ => false end.

(** [x < y] and [x == y] on values: every comparison with a NaN is
    false. *)
Definition xltb (x y : xnum) : bool :=
  match x, y with
  | XNaN, _ | _, XNaN => false
  | _, XNegInf => false
  | XNegInf, _ => true
  | XPosInf, _ => false
  | XFin _, XPosInf => true
  | XFin p, XFin q => Qltb p q
  end.

Definition xeqb (x y : xnum) : bool :=
  match x, y with
  | XFin p, XFin q => Qeq_bool p q
  | XNegInf, XNegInf => true
  | XPosInf, XPosInf => true
  | _, _ => false
  end.

Definition xleb (x y : xnum) : bool := xltb x y || xeqb x y.

Definition is_nan (o : json) : bool :=
  match o with
  | JSpecial NaN => true
  | _ => false
  end.

(** [a == b]; it never raises on decoded JSON.  Lists and dicts compare
    their items with [is] before [==], and the decoder gives one and the
    same object for every [NaN] it reads: inside a container a NaN equals
    a NaN. *)
Fixpoint py_eq (a b : json) : bool :=
  match a, b with
  | JNull, JNull => true
  | JStr s, JStr t => String.eqb s t
  | JArr l, JArr m =>
      (fix go (l m : list json) : bool :=
         match l, m with
         | [], [] => true
         | x :: l', y :: m' =>
             ((is_nan x && is_nan y) || py_eq x y) && go l' m'
         | _, _ => false
         end) l m
  | JObj kv, JObj kv' =>
      Nat.eqb (List.length kv) (List.length kv') &&
      (fix go (kv : list (string * json)) : bool :=
         match kv with
         | [] => true
         | (k, v) :: r =>
             match lookup k kv' with
             | Some v' => (is_nan v && is_nan v') || py_eq v v'
             | None => false
             end && go r
         end) kv
  | _, _ =>
      match xval a, xval b with
      | Some x, Some y => xeqb x y
      | _, _ => false
      end
  end.

(** [a < b]: numbers by value, strings and lists lexicographically, a
    [TypeError] otherwise. *)
Fixpoint py_lt (a b : json) : exc bool :=
  match a, b with
  | JStr s, JStr t => Ok (String.ltb s t)
  | JArr l, JArr m =>
      (fix go (l m : list json) : exc bool :=
         match l, m with
         | [], [] => Ok false
         | [], _ :: _ => Ok true
         | _ :: _, [] => Ok false
         | x :: l', y :: m' =>
             if (is_nan x && is_nan y) || py_eq x y then go l' m'
             else py_lt x y
         end) l m
  | _, _ =>
      match xval a, xval b with
      | Some x, Some y => Ok (xltb x y)
      | _, _ => Raise TypeError
      end
  end.

(** [b > a] on these types is [a < b]. *)
Definition py_gt (b a : json) : exc bool := py_lt a b.

(** [a <= b]; with a NaN it is not the negation of [b < a]. *)
Fixpoint py_le (a b : json) : exc bool :=
  match a, b with
  | JStr s, JStr t => Ok (negb (String.ltb t s))
  | JArr l, JArr m =>
      (fix go (l m : list json) : exc bool :=
         match l, m with
         | [], _ => Ok true
         | _ :: _, [] => Ok false
         | x :: l', y :: m' =>
             if (is_nan x && is_nan y) || py_eq x y then go l' m'
             else py_le x y
         end) l m
  | _, _ =>
      match xval a, xval b with
      | Some x, Some y => Ok (xleb x y)
      | _, _ => Raise TypeError
      end
  end.

(** [min(a, b)] keeps [a] unless [b < a]; [max(a, b)] keeps [a] unless
    [b > a]. *)
Definition py_min (a b : json) : exc json :=
  exc_bind (py_lt b a) (fun r => Ok (if r then b else a)).

Definition py_max (a b : json) : exc json :=
  exc_bind (py_gt b a) (fun r => Ok (if r then b else a)).

(* ================================================================== *)
(** ** The database: table [weather] *)

(** A value bound to a [?] of the INSERT, as [sqlite3] accepts it. *)
Inductive sqlval : Type :=
| SqlNull
| SqlInt (z : Z)
| SqlReal (q : Q)
| SqlText (s : string)
| SqlInf (negative : bool).   (* the REAL values Inf and -Inf *)

(** One row of [weather], holding the values the INSERT bound.  What
    SQLite makes of a value by the affinity of its column (an [int] in the
    REAL column reads back as the nearest float, the text of a number as
    that number, a number in a TEXT column as its text) is not modelled:
    what is read back is the value bound where the affinity changes
    nothing, that is for [None], for a float in the REAL column and for a
    string in a TEXT column. *)
Record WeatherRecord : Type := {
  id : Z;
  city : string;
  temperature : sqlval;
  description : sqlval;
  dt : string
}.

(** The table and the counter that [AUTOINCREMENT] keeps in
    [sqlite_sequence]. *)
Record Database : Type := {
  weather : list WeatherRecord;
  sqlite_sequence : Z
}.

Definition max_rowid (rows : list WeatherRecord) : Z :=
  fold_right (fun r m => Z.max (id r) m) 0%Z rows.

(** The rowid of the next INSERT: one more than the largest rowid the
    table has ever held. *)
Definition next_rowid (d : Database) : Z :=
  (Z.max (sqlite_sequence d) (max_rowid (weather d)) + 1)%Z.

(** How [sqlite3] binds a Python object; lists and dicts are refused, an
    [int] must fit 64 bits, and SQLite stores a NaN as NULL. *)
Definition adapt (v : json) : exc sqlval :=
  match v with
  | JNull => Ok SqlNull
  | JBool b => Ok (SqlInt (if b then 1%Z else 0%Z))
  | JInt z =>
      if ((- 2 ^ 63 <=? z) && (z <? 2 ^ 63))%Z then Ok (SqlInt z)
      else Raise OverflowError
  | JFloat q => Ok (SqlReal q)
  | JStr s => Ok (SqlText s)
  | JArr _ | JObj _ => Raise BindError
  | JSpecial NaN => Ok SqlNull
  | JSpecial PosInf => Ok (SqlInf false)
  | JSpecial NegInf => Ok (SqlInf true)
  end.

(** [INSERT INTO weather (city, temperature, description, dt) VALUES (?, ?, ?, ?)]
    followed by [commit]. *)
Definition insert_weather (c : string) (t d : json) (stamp : string)
    (db : Database) : exc Database :=
  (t' <- adapt t ;;
   d' <- adapt d ;;
   let rid := next_rowid db in
   Ok {| weather := weather db ++
                    [{| id := rid; city := c; temperature := t';
                        description := d'; dt := stamp |}];
         sqlite_sequence := rid |})%exc.

(** Insertion of a row into a list ordered by descending [id]. *)
Fixpoint insert_desc (r : WeatherRecord) (l : list WeatherRecord)
  : list WeatherRecord :=
  match l with
  | [] => [r]
  | x :: l' => if (id x <=? id r)%Z then r :: l else x :: insert_desc r l'
  end.

(** [ORDER BY id DESC]. *)
Definition order_by_id_desc (rows : list WeatherRecord) : list WeatherRecord :=
  fold_right insert_desc [] rows.

(** [SELECT ... FROM weather ORDER BY id DESC LIMIT n]: the rows the query
    returns, before the projection on the selected columns. *)
Definition select_recent (n : nat) (d : Database) : list WeatherRecord :=
  firstn n (order_by_id_desc (weather d)).

Definition sql_json (v : sqlval) : json :=
  match v with
  | SqlNull => JNull
  | SqlInt z => JInt z
  | SqlReal q => JFloat q
  | SqlText s => JStr s
  | SqlInf negative => JSpecial (if negative then NegInf else PosInf)
  end.

(** [dict(row)] for a row of the SELECT: the four selected columns. *)
Definition dict_row (r : WeatherRecord) : json :=
  JObj [("city", JStr (city r)); ("temperature", sql_json (temperature r));
        ("description", sql_json (description r)); ("dt", JStr (dt r))].

(** The primary key: no two rows share an [id]. *)
Definition primary_key (d : Database) : Prop := NoDup (map id (weather d)).

(* ================================================================== *)
(** ** The environment and the state of a request *)

(** What [requests.get] returns: the status and what [resp.json()] gives. *)
Record Response : Type := {
  status_code : Z;
  resp_json : exc json
}.

(** The outside of a handler.  The templates are not part of the source
    file; [render_template] is whatever the engine makes of a template name
    and its keyword arguments, or the exception it raises. *)
Record Env : Type := {
  API_KEY : string;
  requests_get : string -> list (string * string) -> Z -> exc Response;
  strftime_now : string -> string;
  render_template : string -> list (string * json) -> exc string;
  str_exn : exn -> string
}.

(** One call of [requests.get]: url, query parameters, timeout. *)
Record Call : Type := {
  url : string;
  params : list (string * string);
  timeout : Z
}.

Record State : Type := {
  db : Database;
  sent : list Call           (* the provider calls made so far, in order *)
}.

(** Computations of a handler: they read and change the state and may
    raise. *)
Definition M (A : Type) : Type := State -> exc A * State.

Definition ret {A} (a : A) : M A := fun s => (Ok a, s).

Definition bind {A B} (m : M A) (k : A -> M B) : M B :=
  fun s => match m s with
           | (Ok a, s') => k a s'
           | (Raise e, s') => (Raise e, s')
           end.

Definition lift {A} (m : exc A) : M A := fun s => (m, s).

(** [try: body  except Exception as e: handler e]. *)
Definition try_except {A} (body : M A) (handler : exn -> M A) : M A :=
  fun s => match body s with
           | (Ok a, s') => (Ok a, s')
           | (Raise e, s') => handler e s'
           end.

Declare Scope handler_scope.
Delimit Scope handler_scope with M.
Notation "x <- m ;; k" := (bind m (fun x => k))
  (at level 61, m at next level, right associativity) : handler_scope.
Notation "m ;;; k" := (bind m (fun _ => k))
  (at level 61, right associativity) : handler_scope.

(** [requests.get(url, params=..., timeout=...)]. *)
Definition http_get (E : Env) (u : string) (p : list (string * string))
    (t : Z) : M Response :=
  fun s => (requests_get E u p t,
            {| db := db s;
               sent := sent s ++ [{| url := u; params := p; timeout := t |}] |}).

(** [db = get_db(); db.execute(INSERT ...); db.commit(); db.close()]. *)
Definition execute_insert (c : string) (t d : json) (stamp : string) : M unit :=
  fun s => match insert_weather c t d stamp (db s) with
           | Ok db' => (Ok tt, {| db := db'; sent := sent s |})
           | Raise e => (Raise e, s)
           end.

(** What a view returns: a body and a status. *)
Inductive Body : Type :=
| Jsonify (j : json)
| Text (s : string)
| ErrorPage (e : exn).      (* Flask's answer to an exception no view caught *)

Definition Reply : Type := (Body * Z)%type.

(** Flask around a view: [BadRequest] becomes a 400, any other exception
    that leaves the view a 500. *)
Definition dispatch (view : M Reply) (s : State) : Reply * State :=
  match view s with
  | (Ok r, s') => (r, s')
  | (Raise BadRequest, s') => ((ErrorPage BadRequest, 400%Z), s')
  | (Raise e, s') => ((ErrorPage e, 500%Z), s')
  end.

(* ================================================================== *)
(** ** The forecast aggregation of [daily_weather] *)

(** The dict [{"min": ..., "max": ...}] kept for one date. *)
Record MinMax : Type := { v_min : json; v_max : json }.

(** One element of [daily_list]: [{"date": k, "min": ..., "max": ...}]. *)
Record DailySummary : Type := { date : string; t_min : json; t_max : json }.

(** [item["dt_txt"].split()[0]]. *)
Definition item_date (item : json) : exc string :=
  (stamp <- py_getitem item "dt_txt" ;;
   words <- py_split stamp ;;
   first_token words)%exc.

(** [item["main"]["temp"]]. *)
Definition item_temp (item : json) : exc json :=
  (m <- py_getitem item "main" ;;
   py_getitem m "temp")%exc.

(** The body of the loop, for one [item]. *)
Definition daily_step (daily : list (string * MinMax)) (item : json)
  : exc (list (string * MinMax)) :=
  (d <- item_date item ;;
   temp <- item_temp item ;;
   match lookup d daily with
   | None => Ok (assign d {| v_min := temp; v_max := temp |} daily)
   | Some v =>
       lo <- py_min (v_min v) temp ;;
       hi <- py_max (v_max v) temp ;;
       Ok (assign d {| v_min := lo; v_max := hi |} daily)
   end)%exc.

(** [for item in raw: ...]. *)
Fixpoint daily_loop (daily : list (string * MinMax)) (raw : list json)
  : exc (list (string * MinMax)) :=
  match raw with
  | [] => Ok daily
  | item :: rest =>
      (daily' <- daily_step daily item ;; daily_loop daily' rest)%exc
  end.

(** [[{"date": k, "min": v["min"], "max": v["max"]} for k, v in daily.items()]]. *)
Definition daily_items (daily : list (string * MinMax)) : list DailySummary :=
  map (fun kv => {| date := fst kv; t_min := v_min (snd kv);
                    t_max := v_max (snd kv) |}) daily.

(** Lines 180-190 of the source: from the forecast list to [daily_list]. *)
Definition daily_list (raw : list json) : exc (list DailySummary) :=
  (daily <- daily_loop [] raw ;; Ok (daily_items daily))%exc.

Definition summary_json (s : DailySummary) : json :=
  JObj [("date", JStr (date s)); ("min", t_min s); ("max", t_max s)].

(* ================================================================== *)
(** ** The views *)

Definition weather_url : string :=
  "https://api.openweathermap.org/data/2.5/weather".
Definition forecast_url : string :=
  "https://api.openweathermap.org/data/2.5/forecast".

(** [params={"q": city, "appid": API_KEY, "units": "metric"}]. *)
Definition query (E : Env) (c : string) : list (string * string) :=
  [("q", c); ("appid", API_KEY E); ("units", "metric")].

Definition stamp_format : string := "%d-%b-%Y %I:%M:%S %p".

(** [request.get_json(force=True)]; [None] is a body that is not JSON. *)
Definition get_json (payload : option json) : M json :=
  match payload with
  | Some j => ret j
  | None => lift (Raise BadRequest)
  end.

Definition error_json (msg : string) : json := JObj [("error", JStr msg)].

(** [render_template(name, **ctx)] returned by a view. *)
Definition render (E : Env) (name : string) (ctx : list (string * json))
  : M Reply :=
  (html <- lift (render_template E name ctx) ;; ret (Text html, 200%Z))%M.

Section Views.

Variable E : Env.

Local Open Scope handler_scope.

(** [POST /api/weather]. *)
Definition api_weather (payload : option json) : M Reply :=
  data <- get_json payload ;;
  c <- lift (py_get data "city" (JStr "")) ;;
  city <- lift (py_strip c) ;;
  if String.eqb city "" then
    ret (Jsonify (error_json "City required"), 400%Z)
  else
    try_except
      (resp <- http_get E weather_url (query E city) 8 ;;
       if negb (status_code resp =? 200)%Z then
         ret (Jsonify (error_json "City not found or API error"), 404%Z)
       else
         js <- lift (resp_json resp) ;;
         main <- lift (py_get js "main" (JObj [])) ;;
         temp <- lift (py_get main "temp" JNull) ;;
         w <- lift (py_get js "weather" JNull) ;;
         w0 <- lift (py_getitem0 (py_or w (JArr [JObj []]))) ;;
         desc <- lift (py_get w0 "description" (JStr "")) ;;
         let stamp := strftime_now E stamp_format in
         let out := JObj [("city", JStr city); ("temperature", temp);
                          ("description", desc); ("dt", JStr stamp)] in
         execute_insert city temp desc stamp ;;;
         ret (Jsonify out, 200%Z))
      (fun e => ret (Jsonify (error_json (str_exn E e)), 500%Z)).

(** [GET /weather/<city>]. *)
Definition show_weather_page (city : string) : M Reply :=
  try_except
    (resp <- http_get E weather_url (query E city) 8 ;;
     if negb (status_code resp =? 200)%Z then
       ret (Text ("No data found for '" ++ city ++ "'"), 404%Z)
     else
       js <- lift (resp_json resp) ;;
       main <- lift (py_getitem js "main") ;;
       temp <- lift (py_getitem main "temp") ;;
       w <- lift (py_getitem js "weather") ;;
       w0 <- lift (py_getitem0 w) ;;
       desc <- lift (py_getitem w0 "description") ;;
       let stamp := strftime_now E stamp_format in
       execute_insert city temp desc stamp ;;;
       render E "result.html"
         [("city", JStr city); ("temp", temp); ("desc", desc);
          ("dt", JStr stamp)])
    (fun e => ret (Text ("Error: " ++ str_exn E e), 500%Z)).

(** [GET /weather/<city>/today]. *)
Definition today_weather (city : string) : M Reply :=
  try_except
    (resp <- http_get E weather_url (query E city) 8 ;;
     if negb (status_code resp =? 200)%Z then
       ret (Text ("No data found for '" ++ city ++ "'"), 404%Z)
     else
       js <- lift (resp_json resp) ;;
       m1 <- lift (py_get js "main" (JObj [])) ;;
       today_high <- lift (py_get m1 "temp_max" JNull) ;;
       m2 <- lift (py_get js "main" (JObj [])) ;;
       today_low <- lift (py_get m2 "temp_min" JNull) ;;
       w <- lift (py_get js "weather" JNull) ;;
       w0 <- lift (py_getitem0 (py_or w (JArr [JObj []]))) ;;
       icon <- lift (py_get w0 "description" (JStr "☀️")) ;;
       render E "today.html"
         [("city", JStr city); ("today_high", today_high);
          ("today_low", today_low); ("icon", icon)])
    (fun e => ret (Text ("Error: " ++ str_exn E e), 500%Z)).

(** [GET /weather/<city>/hourly]. *)
Definition hourly_weather (city : string) : M Reply :=
  try_except
    (resp <- http_get E forecast_url (query E city) 8 ;;
     if negb (status_code resp =? 200)%Z then
       ret (Text ("No hourly data found for '" ++ city ++ "'"), 404%Z)
     else
       js <- lift (resp_json resp) ;;
       l <- lift (py_get js "list" (JArr [])) ;;
       data <- lift (py_slice_to 8 l) ;;
       render E "hourly.html" [("city", JStr city); ("data", data)])
    (fun e => ret (Text ("Error: " ++ str_exn E e), 500%Z)).

(** [GET /weather/<city>/daily]. *)
Definition daily_weather (city : string) : M Reply :=
  try_except
    (resp <- http_get E forecast_url (query E city) 8 ;;
     if negb (status_code resp =? 200)%Z then
       ret (Text ("No daily data found for '" ++ city ++ "'"), 404%Z)
     else
       js <- lift (resp_json resp) ;;
       l <- lift (py_get js "list" (JArr [])) ;;
       raw <- lift (py_iter l) ;;
       summaries <- lift (daily_list raw) ;;
       render E "daily.html"
         [("city", JStr city); ("data", JArr (map summary_json summaries))])
    (fun e => ret (Text ("Error: " ++ str_exn E e), 500%Z)).

(** [GET /weather/<city>/weekly]. *)
Definition weekly_weather (city : string) : M Reply :=
  daily_weather city.

(** [GET /api/history]. *)
Definition api_history : M Reply :=
  try_except
    (fun s =>
       let rows := select_recent 6 (db s) in
       (Ok (Jsonify (JArr (map dict_row rows)), 200%Z), s))
    (fun e => ret (Jsonify (error_json (str_exn E e)), 500%Z)).

End Views.

(* ================================================================== *)
(** ** Vocabulary of the specification *)

(** A forecast entry as the provider sends it, reduced to the two fields
    the aggregation reads. *)
Definition sample (stamp : string) (temp : json) : json :=
  JObj [("dt_txt", JStr stamp); ("main", JObj [("temp", temp)])].

Definition is_number (t : json) : bool :=
  match t with
  | JInt _ | JFloat _ | JSpecial _ => true
  | _ => false
  end.

(** A weather sample: [dt_txt] is a string that holds a date (it has a
    character that is not white space) and [main.temp] is a number. *)
Definition is_sample (item : json) : bool :=
  match py_getitem item "dt_txt", item_temp item with
  | Ok (JStr stamp), Ok t =>
      match str_split stamp with
      | [] => false
      | _ :: _ => is_number t
      end
  | _, _ => false
  end.

Definition WeatherSample (item : json) : Prop := is_sample item = true.

(** [x <= y] and [x == y] on values; a NaN is neither below, above nor
    equal to anything. *)
Definition xle (x y : xnum) : Prop :=
  match x, y with
  | XNaN, _ | _, XNaN => False
  | XNegInf, _ => True
  | _, XPosInf => True
  | XFin p, XFin q => (p <= q)%Q
  | _, _ => False
  end.

Definition xeq (x y : xnum) : Prop :=
  match x, y with
  | XFin p, XFin q => (p == q)%Q
  | XNegInf, XNegInf => True
  | XPosInf, XPosInf => True
  | _, _ => False
  end.

(** [a <= b] on temperatures. *)
Definition temp_le (a b : json) : Prop :=
  exists x y, xval a = Some x /\ xval b = Some y /\ xle x y.

(** The dates of the entries, in input order (entries without a date give
    none). *)
Definition sample_dates (raw : list json) : list string :=
  flat_map (fun item => match item_date item with
                        | Ok d => [d]
                        | Raise _ => []
                        end) raw.

(** The distinct elements of a list in the order of their first
    occurrence: the head, then the distinct elements of the tail other
    than the head. *)
Fixpoint first_seen (l : list string) : list string :=
  match l with
  | [] => []
  | d :: r => d :: filter (fun x => negb (String.eqb x d)) (first_seen r)
  end.

(** The state after one provider call that left the database alone. *)
Definition logged (E : Env) (u c : string) (s : State) : State :=
  {| db := db s;
     sent := sent s ++ [{| url := u; params := query E c; timeout := 8 |}] |}.

(** The reply of a view that ends in [render_template]. *)
Definition rendered (E : Env) (name : string) (ctx : list (string * json))
  : Reply :=
  match render_template E name ctx with
  | Ok html => (Text html, 200%Z)
  | Raise e => (Text ("Error: " ++ str_exn E e), 500%Z)
  end.

(** [add_key ks k]: the keys of a dict after an assignment to [k]. *)
Definition add_key (ks : list string) (k : string) : list string :=
  if existsb (String.eqb k) ks then ks else ks ++ [k].

(** Rows in descending order of [id], with and without ties. *)
Definition newer (a b : WeatherRecord) : Prop := (id b < id a)%Z.
Definition not_older (a b : WeatherRecord) : Prop := (id b <= id a)%Z.

(** A database as a sequence of INSERTs leaves it: the rows stand in the
    order of their insertion, with growing [id], none above the counter. *)
Definition append_only (d : Database) : Prop :=
  StronglySorted (fun a b => (id a < id b)%Z) (weather d) /\
  Forall (fun r => (id r <= sqlite_sequence d)%Z) (weather d).

(** [main.temp] of a decoded response, when the path leads somewhere. *)
Definition main_temp (js : json) : option json :=
  match js with
  | JObj kv => match lookup "main" kv with
               | Some (JObj m) => lookup "temp" m
               | _ => None
               end
  | _ => None
  end.

(** The temperature [api_weather] stores for a response object whose
    [main] is absent or an object: [main.temp], or [None]. *)
Definition temp_or_null (kv : list (string * json)) : json :=
  match lookup "main" kv with
  | Some (JObj m) => match lookup "temp" m with
                     | Some t => t
                     | None => JNull
                     end
  | _ => JNull
  end.

(** The description it stores when [weather] is absent, falsy or a list
    that starts with an object: [weather[0].description], or [""]. *)
Definition description_or_empty (kv : list (string * json)) : json :=
  match lookup "weather" kv with
  | Some (JArr (JObj w :: _)) => match lookup "description" w with
                                 | Some d => d
                                 | None => JStr ""
                                 end
  | _ => JStr ""
  end.

Definition main_usable (kv : list (string * json)) : bool :=
  match lookup "main" kv with
  | None | Some (JObj _) => true
  | Some _ => false
  end.

Definition weather_usable (kv : list (string * json)) : bool :=
  match lookup "weather" kv with
  | None => true
  | Some w => negb (py_truthy w) ||
              match w with JArr (JObj _ :: _) => true | _ => false end
  end.

(** The database after the INSERT of one row. *)
Definition with_row (d : Database) (c : string) (t de : sqlval)
    (stamp : string) : Database :=
  {| weather := weather d ++
                [{| id := next_rowid d; city := c; temperature := t;
                    description := de; dt := stamp |}];
     sqlite_sequence := next_rowid d |}.

(* ------------------------------------------------------------------ *)
(** *** A concrete environment, for runs on explicit inputs *)

(** An environment whose provider gives [answer] to every call. *)
Definition env_answering (answer : exc Response) : Env :=
  {| API_KEY := "key";
     requests_get := fun _ _ _ => answer;
     strftime_now := fun _ => "01-Jan-2024 09:30:00 AM";
     render_template := fun name _ => Ok name;
     str_exn := fun _ => "error" |}.

Definition fresh : State :=
  {| db := {| weather := []; sqlite_sequence := 0 |}; sent := [] |}.

Definition row (n : Z) : WeatherRecord :=
  {| id := n; city := "Oslo"; temperature := SqlReal (inject_Z n);
     description := SqlText "clear sky"; dt := "01-Jan-2024 09:30:00 AM" |}.

(** Eight rows, not stored in the order of their ids. *)
Definition eight_rows : State :=
  {| db := {| weather := [row 3; row 1; row 8; row 2; row 7; row 5; row 4; row 6];
              sqlite_sequence := 8 |};
     sent := [] |}.

Definition ok200 (js : json) : exc Response :=
  Ok {| status_code := 200; resp_json := Ok js |}.

Definition oslo : option json := Some (JObj [("city", JStr " Oslo ")]).

(** A 200 answer whose [main] is [null]. *)
Definition null_main : json :=
  JObj [("main", JNull);
        ("weather", JArr [JObj [("description", JStr "clear sky")]])].

(** The forecast of the specification's example, without and with a time
    of day. *)
Definition forecast_example : list json :=
  [sample "01-01" (JInt 10); sample "01-01" (JInt 15); sample "01-02" (JInt 5)].

Definition forecast_example_timed : list json :=
  [sample "01-01 09:00:00" (JInt 10); sample "01-01 12:00:00" (JInt 15);
   sample "01-02 09:00:00" (JInt 5)].

(** A computation that leaves the database as it found it. *)
Definition keeps_db {A} (m : M A) : Prop :=
  forall s, db (snd (m s)) = db s.

(** A provider answer with a status other than 200. *)
Definition not_found : exc Response :=
  Ok {| status_code := 404; resp_json := Raise JSONDecodeError |}.

(** A forecast answer of ten entries. *)
Definition ten_entries : list json :=
  map (fun n => sample "01-01 00:00:00" (JInt n)) [1; 2; 3; 4; 5; 6; 7; 8; 9; 10]%Z.

(** No character of the string is white space. *)
Definition one_word (w : string) : Prop :=
  Forall (fun c => py_isspace c = false) (list_ascii_of_string w).

(* ------------------------------------------------------------------ *)
(** *** Weather samples, said without the code *)

(** A reading: the calendar day and the temperature of a weather sample. *)
Definition Reading : Type := (string * json)%type.

(** The forecast entry [item] carries the reading [r]: it is an object,
    every key once, whose [dt_txt] is the day, alone or followed by a space
    and a time of day, and whose [main] is an object with the temperature
    under [temp]. *)
Definition carries (item : json) (r : Reading) : Prop :=
  exists kv m stamp,
    item = JObj kv /\ NoDup (map fst kv) /\ NoDup (map fst m) /\
    In ("dt_txt", JStr stamp) kv /\
    (stamp = fst r \/ exists time, stamp = (fst r ++ String " " time)%string) /\
    In ("main", JObj m) kv /\
    In ("temp", snd r) m.

(** A weather sample and its reading: the day is a word (not empty, no
    white space in it), the temperature a number. *)
Definition sample_of (item : json) (r : Reading) : Prop :=
  fst r <> "" /\ one_word (fst r) /\ is_number (snd r) = true /\
  carries item r.

(** No sample of the day [d] has a NaN for temperature. *)
Definition no_nan_on (d : string) (rs : list Reading) : Prop :=
  forall t, In (d, t) rs -> is_nan t = false.

(** What the loop of [daily_weather] keeps true of [daily] once the
    samples with the readings [seen] are read: the bounds kept for a day
    are temperatures of that day, in order unless a NaN came that day. *)
Definition bounds_inv (seen : list Reading) (daily : list (string * MinMax))
  : Prop :=
  forall k v, In (k, v) daily ->
    In (k, v_min v) seen /\ In (k, v_max v) seen /\
    (no_nan_on k seen -> temp_le (v_min v) (v_max v)).

(** And every temperature read lies between the bounds of its day, unless
    a NaN came that day. *)
Definition covers (seen : list Reading) (daily : list (string * MinMax))
  : Prop :=
  forall k t, In (k, t) seen ->
    exists v, lookup k daily = Some v /\
              (no_nan_on k seen -> temp_le (v_min v) t /\ temp_le t (v_max v)).

(** The readings of the specification's example. *)
Definition forecast_readings : list Reading :=
  [("01-01", JInt 10); ("01-01", JInt 15); ("01-02", JInt 5)].

(** The same day with a NaN first. *)
Definition nan_then_five : list json :=
  [sample "01-01 09:00:00" (JSpecial NaN); sample "01-01 12:00:00" (JInt 5)].

(* ------------------------------------------------------------------ *)
(** *** The form page and the routes *)

(** What the application sends back: the reply of a view, or the redirect
    [redirect(url_for(endpoint, **values))]. *)
Inductive Answer : Type :=
| Replied (r : Reply)
| Redirected (endpoint : string) (values : list (string * string)).

(** [GET|POST /].  [form] is [request.form]. *)
Definition index (E : Env) (method : string) (form : list (string * string))
  : M Answer :=
  let page := bind (render E "main.html" []) (fun r => ret (Replied r)) in
  if String.eqb method "POST" then
    let city := str_strip (match lookup "city" form with
                           | Some c => c
                           | None => ""
                           end) in
    if negb (String.eqb city "") then
      ret (Redirected "show_weather_page" [("city", city)])
    else page
  else page.

(** The requests the routes accept. *)
Inductive Request : Type :=
| Index (method : string) (form : list (string * string))
| ApiWeather (payload : option json)
| ShowWeatherPage (city : string)
| TodayWeather (city : string)
| HourlyWeather (city : string)
| DailyWeather (city : string)
| WeeklyWeather (city : string)
| ApiHistory.

(** The view a route runs. *)
Definition view_of (E : Env) (r : Request) : M Answer :=
  let replied (v : M Reply) := bind v (fun x => ret (Replied x)) in
  match r with
  | Index m f => index E m f
  | ApiWeather p => replied (api_weather E p)
  | ShowWeatherPage c => replied (show_weather_page E c)
  | TodayWeather c => replied (today_weather E c)
  | HourlyWeather c => replied (hourly_weather E c)
  | DailyWeather c => replied (daily_weather E c)
  | WeeklyWeather c => replied (weekly_weather E c)
  | ApiHistory => replied (api_history E)
  end.

(** Flask around a view, as in [dispatch]: its answer for an exception
    that left the view. *)
Definition flask (x : exc Answer * State) : Answer * State :=
  match x with
  | (Ok a, s') => (a, s')
  | (Raise BadRequest, s') => (Replied (ErrorPage BadRequest, 400%Z), s')
  | (Raise e, s') => (Replied (ErrorPage e, 500%Z), s')
  end.

(** One request served. *)
Definition serve (E : Env) (r : Request) (s : State) : Answer * State :=
  flask (view_of E r s).

(** The state after a sequence of requests, each met by the environment
    of its time. *)
Fixpoint run (trace : list (Env * Request)) (s : State) : State :=
  match trace with
  | [] => s
  | (E, r) :: rest => run rest (snd (serve E r s))
  end.

(** The status of an answer; a redirect is a 302. *)
Definition status_of (a : Answer) : Z :=
  match a with
  | Replied (_, st) => st
  | Redirected _ _ => 302%Z
  end.

(* ------------------------------------------------------------------ *)
(** *** What a request may do to the state *)

(** A computation that makes no provider call. *)
Definition keeps_sent {A} (m : M A) : Prop :=
  forall s, sent (snd (m s)) = sent s.

(** The calls the views make: one of the two provider urls, the query of a
    city with the key and metric units, a timeout of 8 seconds. *)
Definition provider_call (E : Env) (c : Call) : Prop :=
  (url c = weather_url \/ url c = forecast_url) /\
  (exists q, params c = query E q) /\
  timeout c = 8%Z.

Definition at_most_one_call (E : Env) (before after : State) : Prop :=
  sent after = sent before \/
  exists c, provider_call E c /\ sent after = sent before ++ [c].

Definition at_most_one_row (before after : Database) : Prop :=
  after = before \/
  exists c t d stamp, after = with_row before c t d stamp.

(** A computation that writes at most one row. *)
Definition writes_once {A} (m : M A) : Prop :=
  forall s, at_most_one_row (db s) (db (snd (m s))).

(** Equal temperatures, by value. *)
Definition temp_eq (a b : json) : Prop :=
  exists x y, xval a = Some x /\ xval b = Some y /\ xeq x y.

(** The entries of a forecast that carry the date [d]. *)
Definition entries_of (d : string) (raw : list json) : list json :=
  filter (fun item => match item_date item with
                      | Ok d' => String.eqb d' d
                      | Raise _ => false
                      end) raw.

(** [js.get("main", {}).get(k)] on an object whose [main] is absent or an
    object. *)
Definition main_field_or_null (k : string) (kv : list (string * json)) : json :=
  match lookup "main" kv with
  | Some (JObj m) => match lookup k m with
                     | Some t => t
                     | None => JNull
                     end
  | _ => JNull
  end.

(** The icon of the today view: [weather[0].description], or the sun. *)
Definition icon_or_sun (kv : list (string * json)) : json :=
  match lookup "weather" kv with
  | Some (JArr (JObj w :: _)) => match lookup "description" w with
                                 | Some d => d
                                 | None => JStr "☀️"
                                 end
  | _ => JStr "☀️"
  end.

(** An environment whose provider gives [answer] and whose template engine
    fails. *)
Definition env_broken_templates (answer : exc Response) : Env :=
  {| API_KEY := "key";
     requests_get := fun _ _ _ => answer;
     strftime_now := fun _ => "01-Jan-2024 09:30:00 AM";
     render_template := fun name _ => Raise (TemplateError name);
     str_exn := fun _ => "error" |}.

(** A complete answer of the current-weather endpoint. *)
Definition clear_sky : json :=
  JObj [("main", JObj [("temp", JFloat (21 # 2)); ("temp_min", JInt 9);
                       ("temp_max", JInt 12)]);
        ("weather", JArr [JObj [("description", JStr "clear sky")]])].

(** A forecast entry without [dt_txt]. *)
Definition undated : json := JObj [("main", JObj [("temp", JInt 7)])].

(** [request.form.get("city", "").strip()]. *)
Definition form_city (form : list (string * string)) : string :=
  str_strip (match lookup "city" form with
             | Some c => c
             | None => ""
             end).

(** A 200 answer whose body is not JSON. *)
Definition undecodable : Response :=
  {| status_code := 200; resp_json := Raise JSONDecodeError |}.

(** A view that never raises and whose status satisfies [P]. *)
Definition answers {A} (P : Z -> Prop) (m : M (A * Z)) : Prop :=
  forall s, exists b st, fst (m s) = Ok (b, st) /\ P st.

(** A computation whose status satisfies [P] when it returns. *)
Definition replies {A} (P : Z -> Prop) (m : M (A * Z)) : Prop :=
  forall s, match fst (m s) with
            | Ok (_, st) => P st
            | Raise _ => True
            end.

(** The statuses of the pages. *)
Definition page_status (st : Z) : Prop :=
  st = 200%Z \/ st = 404%Z \/ st = 500%Z.


(** The temperature of the first reading of a day. *)
Definition first_temp (d : string) (rs : list Reading) : option json :=
  match find (fun r => String.eqb (fst r) d) rs with
  | Some r => Some (snd r)
  | None => None
  end.

(** What the loop keeps of the order of its bounds: they are ordered when
    the day began with a temperature other than NaN, and both that NaN
    otherwise. *)
Definition first_inv (seen : list Reading) (daily : list (string * MinMax))
  : Prop :=
  forall k v, In (k, v) daily ->
    exists t0, first_temp k seen = Some t0 /\
      (is_nan t0 = false -> temp_le (v_min v) (v_max v)) /\
      (is_nan t0 = true -> v_min v = t0 /\ v_max v = t0).

(* ================================================================== *)
(** ** Facts about dicts *)

Lemma lookup_In {V} (k : string) (d : list (string * V)) (v : V) :
  lookup k d = Some v -> In (k, v) d.
Proof.
  induction d as [|[k' v'] d IH]; simpl; [discriminate|].
  destruct (String.eqb k k') eqn:Ek.
  - apply String.eqb_eq in Ek. intros [= ->]. left. now subst.
  - intro H. right. now apply IH.
Qed.

Lemma lookup_None_keys {V} (k : string) (d : list (string * V)) :
  lookup k d = None <-> ~ In k (map fst d).
Proof.
  induction d as [|[k' v'] d IH]; simpl.
  - tauto.
  - destruct (String.eqb k k') eqn:Ek.
    + apply String.eqb_eq in Ek. subst. split; [discriminate|tauto].
    + apply String.eqb_neq in Ek. rewrite IH. split.
      * intros H [H1|H1]; [now subst|tauto].
      * tauto.
Qed.

Lemma assign_In {V} (k : string) (v : V) (d : list (string * V)) p :
  In p (assign k v d) -> In p d \/ p = (k, v).
Proof.
  induction d as [|[k' v'] d IH]; simpl.
  - intros [<-|[]]. now right.
  - destruct (String.eqb k k') eqn:Ek; simpl.
    + apply String.eqb_eq in Ek. subst k'.
      intros [<-|H]; [now right | left; now right].
    + intros [<-|H]; [left; now left|].
      destruct (IH H) as [H1|H1]; [left; now right | now right].
Qed.

Lemma assign_keys_old {V} (k : string) (v v0 : V) (d : list (string * V)) :
  lookup k d = Some v0 -> map fst (assign k v d) = map fst d.
Proof.
  induction d as [|[k' v'] d IH]; simpl; [discriminate|].
  destruct (String.eqb k k') eqn:Ek; simpl; [reflexivity|].
  intro H. now rewrite IH.
Qed.

Lemma assign_keys_new {V} (k : string) (v : V) (d : list (string * V)) :
  lookup k d = None -> map fst (assign k v d) = map fst d ++ [k].
Proof.
  induction d as [|[k' v'] d IH]; simpl; [reflexivity|].
  destruct (String.eqb k k') eqn:Ek; simpl; [discriminate|].
  intro H. now rewrite IH.
Qed.

(* ================================================================== *)
(** ** Facts about comparison *)

Lemma Qltb_true (p q : Q) : Qltb p q = true -> (p < q)%Q.
Proof.
  unfold Qltb. destruct (p ?= q)%Q eqn:E; try discriminate.
  intros _. now apply Qlt_alt.
Qed.

Lemma Qltb_false (p q : Q) : Qltb p q = false -> (q <= p)%Q.
Proof.
  unfold Qltb. destruct (p ?= q)%Q eqn:E; try discriminate; intros _.
  - apply Qeq_alt in E. rewrite E. apply Qle_refl.
  - apply Qgt_alt in E. now apply Qlt_le_weak.
Qed.

Lemma xltb_true (x y : xnum) : xltb x y = true -> xle x y.
Proof.
  destruct x, y; simpl; try discriminate; auto.
  intro H. apply Qlt_le_weak. now apply Qltb_true.
Qed.

Lemma xltb_false (x y : xnum) :
  xltb x y = false -> x <> XNaN -> y <> XNaN -> xle y x.
Proof.
  destruct x, y; simpl; try discriminate; try congruence; auto.
  intros H _ _. now apply Qltb_false.
Qed.

Lemma xle_refl (x : xnum) : x <> XNaN -> xle x x.
Proof. destruct x; simpl; try congruence; auto using Qle_refl. Qed.

Lemma xle_trans (x y z : xnum) : xle x y -> xle y z -> xle x z.
Proof.
  destruct x, y, z; simpl; try tauto. apply Qle_trans.
Qed.

Lemma xle_antisym (x y : xnum) : xle x y -> xle y x -> xeq x y.
Proof.
  destruct x, y; simpl; try tauto. apply Qle_antisym.
Qed.

Lemma xle_not_nan (x y : xnum) : xle x y -> x <> XNaN /\ y <> XNaN.
Proof. destruct x, y; simpl; try tauto; split; discriminate. Qed.

Lemma xle_xleb (x y : xnum) : xle x y -> xleb x y = true.
Proof.
  unfold xleb. destruct x, y; simpl; try tauto.
  intro H. unfold Qltb. destruct (q ?= q0)%Q eqn:C; [|reflexivity|].
  - simpl. apply Qeq_bool_iff. now apply Qeq_alt.
  - exfalso. apply Qle_alt in H. contradiction.
Qed.

Lemma is_number_val (t : json) :
  is_number t = true -> exists x, xval t = Some x.
Proof.
  destruct t as [| | | | | | |[]]; simpl; try discriminate; eauto.
Qed.

Lemma xval_nan (t : json) (x : xnum) :
  xval t = Some x -> is_nan t = false -> x <> XNaN.
Proof.
  destruct t as [|[]| | | | | |[]]; simpl; try discriminate;
    intros [= <-] H; discriminate.
Qed.

Lemma py_lt_numbers (a b : json) :
  is_number a = true -> is_number b = true ->
  exists x y, xval a = Some x /\ xval b = Some y /\
              py_lt a b = Ok (xltb x y).
Proof.
  destruct a as [| | | | | | |[]]; simpl; try discriminate;
    destruct b as [| | | | | | |[]]; simpl; try discriminate;
    intros _ _; eauto.
Qed.

(** [min] and [max] of two numbers return one of the two, whatever the
    numbers. *)
Lemma py_min_pick (a b : json) :
  is_number a = true -> is_number b = true ->
  exists m, py_min a b = Ok m /\ (m = a \/ m = b).
Proof.
  intros Ha Hb. unfold py_min.
  destruct (py_lt_numbers b a Hb Ha) as (y & x & _ & _ & ->). simpl.
  destruct (xltb y x); eauto.
Qed.

Lemma py_max_pick (a b : json) :
  is_number a = true -> is_number b = true ->
  exists m, py_max a b = Ok m /\ (m = a \/ m = b).
Proof.
  intros Ha Hb. unfold py_max, py_gt.
  destruct (py_lt_numbers a b Ha Hb) as (x & y & _ & _ & ->). simpl.
  destruct (xltb x y); eauto.
Qed.

(** Without a NaN they return the smaller and the greater. *)
Lemma py_min_le (a b m : json) :
  is_number a = true -> is_number b = true ->
  is_nan a = false -> is_nan b = false ->
  py_min a b = Ok m -> temp_le m a /\ temp_le m b.
Proof.
  intros Ha Hb Na Nb. unfold py_min.
  destruct (py_lt_numbers b a Hb Ha) as (y & x & Hy & Hx & ->). simpl.
  pose proof (xval_nan _ _ Hx Na) as Nx. pose proof (xval_nan _ _ Hy Nb) as Ny.
  destruct (xltb y x) eqn:C; intros [= <-].
  - apply xltb_true in C. split.
    + exists y, x. auto.
    + exists y, y. auto using xle_refl.
  - apply xltb_false in C; auto. split.
    + exists x, x. auto using xle_refl.
    + exists x, y. auto.
Qed.

Lemma py_max_le (a b m : json) :
  is_number a = true -> is_number b = true ->
  is_nan a = false -> is_nan b = false ->
  py_max a b = Ok m -> temp_le a m /\ temp_le b m.
Proof.
  intros Ha Hb Na Nb. unfold py_max, py_gt.
  destruct (py_lt_numbers a b Ha Hb) as (x & y & Hx & Hy & ->). simpl.
  pose proof (xval_nan _ _ Hx Na) as Nx. pose proof (xval_nan _ _ Hy Nb) as Ny.
  destruct (xltb x y) eqn:C; intros [= <-].
  - apply xltb_true in C. split.
    + exists x, y. auto.
    + exists y, y. auto using xle_refl.
  - apply xltb_false in C; auto. split.
    + exists x, x. auto using xle_refl.
    + exists y, x. auto.
Qed.

(** With a NaN on either side they return their first argument. *)
Lemma py_min_nan (a b : json) :
  is_number a = true -> is_number b = true ->
  is_nan a = true \/ is_nan b = true -> py_min a b = Ok a.
Proof.
  destruct a as [| | | | | | |[]]; simpl; try discriminate;
    destruct b as [| | | | | | |[]]; simpl; try discriminate;
    intros _ _ [H|H]; try discriminate H; reflexivity.
Qed.

Lemma py_max_nan (a b : json) :
  is_number a = true -> is_number b = true ->
  is_nan a = true \/ is_nan b = true -> py_max a b = Ok a.
Proof.
  destruct a as [| | | | | | |[]]; simpl; try discriminate;
    destruct b as [| | | | | | |[]]; simpl; try discriminate;
    intros _ _ [H|H]; try discriminate H; reflexivity.
Qed.

Lemma temp_le_not_nan (a b : json) :
  temp_le a b -> is_nan a = false /\ is_nan b = false.
Proof.
  intros (x & y & Hx & Hy & Hle). apply xle_not_nan in Hle.
  destruct Hle as (Nx & Ny).
  split; [destruct a as [| | | | | | |[]] | destruct b as [| | | | | | |[]]];
    simpl in *; try reflexivity; congruence.
Qed.

Lemma temp_le_refl (t : json) :
  is_number t = true -> is_nan t = false -> temp_le t t.
Proof.
  intros Hn Hnan. destruct (is_number_val t Hn) as (x & Hx).
  exists x, x. repeat split; auto.
  apply xle_refl. now apply (xval_nan t).
Qed.

Lemma temp_le_trans (a b c : json) : temp_le a b -> temp_le b c -> temp_le a c.
Proof.
  intros (x & y & Hx & Hy & H1) (y' & z & Hy' & Hz & H2).
  rewrite Hy in Hy'. injection Hy' as <-.
  exists x, z. repeat split; auto. now apply xle_trans with y.
Qed.

Lemma temp_le_antisym (a b : json) : temp_le a b -> temp_le b a -> temp_eq a b.
Proof.
  intros (x & y & Hx & Hy & H1) (y' & x' & Hy' & Hx' & H2).
  rewrite Hy in Hy'. rewrite Hx in Hx'. injection Hy' as <-. injection Hx' as <-.
  exists x, y. repeat split; auto. now apply xle_antisym.
Qed.

(** On numbers [temp_le] is Python's [<=]. *)
Lemma py_le_numbers (a b : json) :
  is_number a = true -> is_number b = true -> temp_le a b ->
  py_le a b = Ok true.
Proof.
  intros Ha Hb (x & y & Hx & Hy & Hle). apply xle_xleb in Hle.
  destruct a as [| | | | | | |[]]; simpl in *; try discriminate;
    destruct b as [| | | | | | |[]]; simpl in *; try discriminate;
    injection Hx as <-; injection Hy as <-; now rewrite Hle.
Qed.

(** A number that is no NaN equals itself for Python's [==]. *)
Lemma py_eq_number (t : json) :
  is_number t = true -> is_nan t = false -> py_eq t t = true.
Proof.
  destruct t as [| | | | | | |[]]; simpl; try discriminate; intros _ _;
    try reflexivity; apply Qeq_bool_iff; reflexivity.
Qed.

(* ================================================================== *)
(** ** The aggregation loop *)

Lemma sample_fields (item : json) :
  WeatherSample item ->
  exists d t, item_date item = Ok d /\ item_temp item = Ok t /\
              is_number t = true.
Proof.
  unfold WeatherSample, is_sample, item_date.
  destruct (py_getitem item "dt_txt") as [[]|]; try discriminate.
  destruct (item_temp item) as [t|]; try discriminate.
  simpl. destruct (str_split s) as [|d ws]; try discriminate.
  intro H. exists d, t. auto.
Qed.

Lemma daily_items_In (daily : list (string * MinMax)) (s : DailySummary) :
  In s (daily_items daily) ->
  In (date s, {| v_min := t_min s; v_max := t_max s |}) daily.
Proof.
  unfold daily_items. rewrite in_map_iff.
  intros ([k [lo hi]] & <- & Hin). exact Hin.
Qed.

Lemma lookup_assign {V} (k k' : string) (v : V) (d : list (string * V)) :
  lookup k' (assign k v d) = if String.eqb k' k then Some v else lookup k' d.
Proof.
  induction d as [|[k0 v0] d IH]; simpl.
  - reflexivity.
  - destruct (String.eqb k k0) eqn:E; simpl.
    + apply String.eqb_eq in E. subst k0.
      now destruct (String.eqb k' k).
    + rewrite IH. destruct (String.eqb k' k0) eqn:E0; [|reflexivity].
      apply String.eqb_eq in E0. subst k0.
      rewrite String.eqb_sym in E. now rewrite E.
Qed.

Lemma In_lookup {V} (k : string) (v : V) (d : list (string * V)) :
  NoDup (map fst d) -> In (k, v) d -> lookup k d = Some v.
Proof.
  induction d as [|[k0 v0] d IH]; simpl; intros Hnd H; [contradiction|].
  destruct H as [H|H].
  - injection H as -> ->. now rewrite String.eqb_refl.
  - inversion Hnd as [|? ? Hnotin Hnd']; subst.
    destruct (String.eqb k k0) eqn:E.
    + apply String.eqb_eq in E. subst k0. exfalso. apply Hnotin.
      now apply (in_map fst) in H.
    + now apply IH.
Qed.

(* ------------------------------------------------------------------ *)
(** *** The date of an entry *)

Lemma append_empty_r (u : string) : (u ++ "")%string = u.
Proof. induction u as [|c u IH]; simpl; congruence. Qed.

Lemma append_snoc (u v : string) (c : ascii) :
  ((u ++ String c "") ++ v)%string = (u ++ String c v)%string.
Proof. induction u as [|b u IH]; simpl; congruence. Qed.

Lemma split_ws_word (w : string) :
  one_word w ->
  forall cur rest, (cur ++ w)%string <> "" ->
    split_ws cur (w ++ String " " rest) = (cur ++ w)%string :: split_ws "" rest.
Proof.
  unfold one_word. induction w as [|c w IH]; simpl; intros Hw cur rest Hne.
  - rewrite append_empty_r in *. apply String.eqb_neq in Hne.
    now rewrite Hne.
  - inversion Hw as [|? ? Hc Hw']; subst. rewrite Hc.
    rewrite IH; [|assumption|].
    + now rewrite append_snoc.
    + rewrite append_snoc. now destruct cur.
Qed.

(** When [dt_txt] is a date, a space and a time, the date of the entry is
    the part before the space. *)
Lemma item_date_before_space (d rest : string) (t : json) :
  d <> "" -> one_word d ->
  item_date (sample (d ++ String " " rest) t) = Ok d.
Proof.
  intros Hne Hd. unfold item_date, sample. simpl. unfold str_split.
  now rewrite (split_ws_word d Hd "" rest Hne).
Qed.

(* ------------------------------------------------------------------ *)
(** *** Samples and their readings *)

Lemma split_ws_bare (w : string) :
  one_word w ->
  forall cur, (cur ++ w)%string <> "" -> split_ws cur w = [(cur ++ w)%string].
Proof.
  unfold one_word. induction w as [|c w IH]; simpl; intros Hw cur Hne.
  - rewrite append_empty_r in *. apply String.eqb_neq in Hne.
    now rewrite Hne.
  - inversion Hw as [|? ? Hc Hw']; subst. rewrite Hc.
    rewrite IH; [|assumption|].
    + now rewrite append_snoc.
    + rewrite append_snoc. now destruct cur.
Qed.

(** The code reads from a sample the day and the temperature of its
    reading. *)
Lemma sample_of_fields (item : json) (r : Reading) :
  sample_of item r ->
  item_date item = Ok (fst r) /\ item_temp item = Ok (snd r).
Proof.
  intros (Hne & Hw & _ & kv & m & stamp & -> & Nkv & Nm & Hdt & Hst & Hm & Ht).
  apply (In_lookup _ _ _ Nkv) in Hdt. apply (In_lookup _ _ _ Nkv) in Hm.
  apply (In_lookup _ _ _ Nm) in Ht.
  unfold item_date, item_temp. simpl. rewrite Hdt, Hm. simpl. rewrite Ht.
  split; [|reflexivity]. unfold str_split.
  destruct Hst as [-> | (time & ->)].
  - now rewrite (split_ws_bare _ Hw "" Hne).
  - now rewrite (split_ws_word _ Hw "" time Hne).
Qed.

Lemma sample_of_sample (d : string) (t : json) :
  d <> "" -> one_word d -> is_number t = true ->
  sample_of (sample d t) (d, t) /\
  forall time, sample_of (sample (d ++ String " " time) t) (d, t).
Proof.
  intros Hne Hw Ht.
  assert (N2 : NoDup (map fst [("dt_txt", JStr d); ("main", JObj [("temp", t)])])).
  { simpl. repeat constructor; simpl; intuition discriminate. }
  assert (N1 : NoDup (map fst [("temp", t)])).
  { simpl. repeat constructor. now intros []. }
  split; [|intro time]; (repeat split; auto; simpl).
  - exists [("dt_txt", JStr d); ("main", JObj [("temp", t)])], [("temp", t)], d.
    simpl. intuition.
  - exists [("dt_txt", JStr (d ++ String " " time)); ("main", JObj [("temp", t)])],
      [("temp", t)], (d ++ String " " time)%string.
    simpl. intuition eauto.
Qed.

Lemma sample_dates_readings (raw : list json) (rs : list Reading) :
  Forall2 sample_of raw rs -> sample_dates raw = map fst rs.
Proof.
  induction 1 as [|item r raw rs H _ IH]; simpl; [reflexivity|].
  destruct (sample_of_fields item r H) as (-> & _). simpl. now rewrite IH.
Qed.

Lemma no_nan_on_app (d : string) (rs rs' : list Reading) :
  no_nan_on d (rs ++ rs') -> no_nan_on d rs /\ no_nan_on d rs'.
Proof.
  intro H. split; intros t Ht; apply H; rewrite in_app_iff; tauto.
Qed.

(** One turn of the loop on a sample keeps what the loop keeps. *)
Lemma daily_step_reading (seen : list Reading) (item : json) (r : Reading)
    (daily : list (string * MinMax)) :
  sample_of item r ->
  Forall (fun x => is_number (snd x) = true) seen ->
  bounds_inv seen daily -> covers seen daily ->
  exists daily', daily_step daily item = Ok daily' /\
                 bounds_inv (seen ++ [r]) daily' /\
                 covers (seen ++ [r]) daily'.
Proof.
  intros Hs Hnum Hinv Hcov.
  destruct (sample_of_fields item r Hs) as (Hd & Ht).
  destruct Hs as (_ & _ & Hn & _). destruct r as [d t]. simpl in *.
  rewrite Forall_forall in Hnum.
  assert (Hlast : In (d, t) (seen ++ [(d, t)]))
    by (rewrite in_app_iff; right; now left).
  assert (Hold : forall x, In x seen -> In x (seen ++ [(d, t)]))
    by (intros x Hx; rewrite in_app_iff; now left).
  assert (Hnan_t : no_nan_on d (seen ++ [(d, t)]) -> is_nan t = false)
    by (intro H; now apply H).
  unfold daily_step. rewrite Hd, Ht. simpl.
  destruct (lookup d daily) as [v|] eqn:L.
  - destruct (Hinv d v (lookup_In _ _ _ L)) as (Dlo & Dhi & Hle).
    pose proof (Hnum _ Dlo) as Nlo. pose proof (Hnum _ Dhi) as Nhi.
    simpl in Nlo, Nhi.
    destruct (py_min_pick (v_min v) t Nlo Hn) as (lo & Elo & Plo).
    destruct (py_max_pick (v_max v) t Nhi Hn) as (hi & Ehi & Phi).
    rewrite Elo, Ehi. simpl. eexists; split; [reflexivity|].
    assert (Hbounds : no_nan_on d (seen ++ [(d, t)]) ->
              temp_le lo (v_min v) /\ temp_le lo t /\
              temp_le (v_max v) hi /\ temp_le t hi /\
              temp_le (v_min v) (v_max v)).
    { intro Hno. pose proof (Hnan_t Hno) as Nt.
      destruct (no_nan_on_app _ _ _ Hno) as (Hno' & _).
      pose proof (Hno' _ Dlo) as Nl. pose proof (Hno' _ Dhi) as Nh.
      destruct (py_min_le _ _ _ Nlo Hn Nl Nt Elo) as (A1 & A2).
      destruct (py_max_le _ _ _ Nhi Hn Nh Nt Ehi) as (B1 & B2).
      exact (conj A1 (conj A2 (conj B1 (conj B2 (Hle Hno'))))). }
    split.
    + intros k w Hin. apply assign_In in Hin.
      destruct Hin as [Hin|[= -> ->]].
      * destruct (Hinv k w Hin) as (A & B & C).
        repeat split; auto. intro Hno. apply C.
        now destruct (no_nan_on_app _ _ _ Hno).
      * simpl. repeat split.
        -- destruct Plo as [->| ->]; auto.
        -- destruct Phi as [->| ->]; auto.
        -- intro Hno. destruct (Hbounds Hno) as (_ & A & _ & B & _).
           now apply temp_le_trans with t.
    + intros k t' Hin. rewrite lookup_assign. apply in_app_or in Hin.
      destruct (String.eqb k d) eqn:E.
      * apply String.eqb_eq in E. subst k.
        eexists; split; [reflexivity|]. simpl. intro Hno.
        destruct (Hbounds Hno) as (A & B & C & D & _).
        destruct Hin as [Hin|[[= <-]|[]]]; [|auto].
        destruct (Hcov d t' Hin) as (v' & Lv' & Hv').
        rewrite L in Lv'. injection Lv' as <-.
        destruct (Hv' (proj1 (no_nan_on_app _ _ _ Hno))) as (X & Y).
        split; [now apply temp_le_trans with (v_min v)
               | now apply temp_le_trans with (v_max v)].
      * apply String.eqb_neq in E.
        destruct Hin as [Hin|[[= -> _]|[]]]; [|congruence].
        destruct (Hcov k t' Hin) as (v' & Lv' & Hv').
        exists v'. split; [assumption|]. intro Hno. apply Hv'.
        now destruct (no_nan_on_app _ _ _ Hno).
  - eexists; split; [reflexivity|]. split.
    + intros k w Hin. apply assign_In in Hin.
      destruct Hin as [Hin|[= -> ->]].
      * destruct (Hinv k w Hin) as (A & B & C).
        repeat split; auto. intro Hno. apply C.
        now destruct (no_nan_on_app _ _ _ Hno).
      * simpl. repeat split; auto.
        intro Hno. apply temp_le_refl; auto.
    + intros k t' Hin. rewrite lookup_assign. apply in_app_or in Hin.
      destruct (String.eqb k d) eqn:E.
      * apply String.eqb_eq in E. subst k.
        destruct Hin as [Hin|[[= <-]|[]]].
        -- destruct (Hcov d t' Hin) as (v' & Lv' & _). congruence.
        -- eexists; split; [reflexivity|]. simpl. intro Hno.
           split; apply temp_le_refl; auto.
      * apply String.eqb_neq in E.
        destruct Hin as [Hin|[[= -> _]|[]]]; [|congruence].
        destruct (Hcov k t' Hin) as (v' & Lv' & Hv').
        exists v'. split; [assumption|]. intro Hno. apply Hv'.
        now destruct (no_nan_on_app _ _ _ Hno).
Qed.

Lemma first_temp_app (d : string) (rs rs' : list Reading) :
  first_temp d (rs ++ rs') =
  match first_temp d rs with
  | Some t => Some t
  | None => first_temp d rs'
  end.
Proof.
  unfold first_temp. induction rs as [|[k t] rs IH]; simpl; [reflexivity|].
  destruct (String.eqb k d); [reflexivity | exact IH].
Qed.

Lemma first_temp_In (d : string) (rs : list Reading) (t : json) :
  first_temp d rs = Some t -> In (d, t) rs.
Proof.
  unfold first_temp. induction rs as [|[k t'] rs IH]; simpl; [discriminate|].
  destruct (String.eqb k d) eqn:E.
  - apply String.eqb_eq in E. intros [= <-]. left. now subst.
  - intro H. right. now apply IH.
Qed.

(** One turn of the loop on a sample keeps the order of the bounds. *)
Lemma daily_step_first (seen : list Reading) (item : json) (r : Reading)
    (daily daily' : list (string * MinMax)) :
  sample_of item r ->
  Forall (fun x => is_number (snd x) = true) seen ->
  bounds_inv seen daily -> covers seen daily -> first_inv seen daily ->
  daily_step daily item = Ok daily' ->
  first_inv (seen ++ [r]) daily'.
Proof.
  intros Hs Hnum Hinv Hcov Hfirst.
  destruct (sample_of_fields item r Hs) as (Hd & Ht).
  destruct Hs as (_ & _ & Hn & _). destruct r as [d t]. simpl in *.
  rewrite Forall_forall in Hnum.
  assert (Hold : forall k w, In (k, w) daily ->
            exists t0, first_temp k (seen ++ [(d, t)]) = Some t0 /\
              (is_nan t0 = false -> temp_le (v_min w) (v_max w)) /\
              (is_nan t0 = true -> v_min w = t0 /\ v_max w = t0)).
  { intros k w Hin. destruct (Hfirst k w Hin) as (t0 & F0 & H0).
    exists t0. rewrite first_temp_app, F0. auto. }
  unfold daily_step. rewrite Hd, Ht. simpl.
  destruct (lookup d daily) as [v|] eqn:L.
  - pose proof (lookup_In _ _ _ L) as Hv.
    destruct (Hinv d v Hv) as (Dlo & Dhi & _).
    pose proof (Hnum _ Dlo) as Nlo. pose proof (Hnum _ Dhi) as Nhi.
    simpl in Nlo, Nhi.
    destruct (Hold d v Hv) as (t0 & F0 & Hok & Hnan).
    destruct (py_min_pick (v_min v) t Nlo Hn) as (lo & Elo & _).
    destruct (py_max_pick (v_max v) t Nhi Hn) as (hi & Ehi & _).
    rewrite Elo, Ehi. simpl. intros [= <-].
    intros k w Hin. apply assign_In in Hin.
    destruct Hin as [Hin|[= -> ->]]; [now apply Hold|].
    exists t0. split; [assumption|]. simpl.
    destruct (is_nan t0) eqn:N0.
    + destruct (Hnan eq_refl) as (Emin & Emax).
      split; [discriminate|]. intros _.
      rewrite py_min_nan in Elo by (auto; left; now rewrite Emin).
      rewrite py_max_nan in Ehi by (auto; left; now rewrite Emax).
      injection Elo as <-. injection Ehi as <-. auto.
    + split; [|discriminate]. intros _.
      pose proof (Hok eq_refl) as Hle.
      destruct (temp_le_not_nan _ _ Hle) as (Nl & Nh).
      destruct (is_nan t) eqn:Nt.
      * rewrite py_min_nan in Elo by auto.
        rewrite py_max_nan in Ehi by auto.
        injection Elo as <-. injection Ehi as <-. assumption.
      * destruct (py_min_le _ _ _ Nlo Hn Nl Nt Elo) as (A & _).
        destruct (py_max_le _ _ _ Nhi Hn Nh Nt Ehi) as (B & _).
        apply temp_le_trans with (v_min v); [assumption|].
        now apply temp_le_trans with (v_max v).
  - intros [= <-]. intros k w Hin. apply assign_In in Hin.
    destruct Hin as [Hin|[= -> ->]]; [now apply Hold|].
    exists t. rewrite first_temp_app.
    destruct (first_temp d seen) as [t1|] eqn:F.
    + apply first_temp_In in F. destruct (Hcov d t1 F) as (v' & Lv' & _).
      congruence.
    + unfold first_temp. simpl. rewrite String.eqb_refl. simpl.
      split; [reflexivity|]. split; [|auto].
      intro Nt. now apply temp_le_refl.
Qed.

Lemma daily_loop_readings (raw : list json) (rs : list Reading) :
  Forall2 sample_of raw rs ->
  forall seen daily,
    Forall (fun x => is_number (snd x) = true) seen ->
    bounds_inv seen daily -> covers seen daily -> first_inv seen daily ->
    exists out, daily_loop daily raw = Ok out /\
                bounds_inv (seen ++ rs) out /\ covers (seen ++ rs) out /\
                first_inv (seen ++ rs) out.
Proof.
  induction 1 as [|item r raw rs Hs _ IH];
    intros seen daily Hnum Hinv Hcov Hfirst; simpl.
  - exists daily. rewrite app_nil_r. auto.
  - destruct (daily_step_reading seen item r daily Hs Hnum Hinv Hcov)
      as (d' & Hstep & Hinv' & Hcov').
    pose proof (daily_step_first seen item r daily d' Hs Hnum Hinv Hcov
                  Hfirst Hstep) as Hfirst'.
    rewrite Hstep. simpl.
    assert (Hnum' : Forall (fun x => is_number (snd x) = true) (seen ++ [r])).
    { apply Forall_app. split; [assumption|]. constructor; [|constructor].
      apply Hs. }
    destruct (IH _ _ Hnum' Hinv' Hcov' Hfirst') as (out & Hout & Hb & Hc & Hf).
    exists out. rewrite <- app_assoc in Hb, Hc, Hf. auto.
Qed.

(* ------------------------------------------------------------------ *)
(** *** The keys of [daily] *)

Lemma existsb_eqb_In (k : string) (ks : list string) :
  existsb (String.eqb k) ks = true <-> In k ks.
Proof.
  rewrite existsb_exists. split.
  - intros (x & Hx & E). apply String.eqb_eq in E. now subst.
  - intro H. exists k. split; [assumption | apply String.eqb_refl].
Qed.

Lemma assign_keys {V} (k : string) (v : V) (d : list (string * V)) :
  map fst (assign k v d) = add_key (map fst d) k.
Proof.
  unfold add_key. destruct (lookup k d) as [v0|] eqn:L.
  - rewrite (assign_keys_old k v v0 d L).
    apply lookup_In in L. apply (in_map fst) in L. simpl in L.
    apply existsb_eqb_In in L. now rewrite L.
  - rewrite (assign_keys_new k v d L).
    apply lookup_None_keys in L.
    destruct (existsb (String.eqb k) (map fst d)) eqn:E; [|reflexivity].
    apply existsb_eqb_In in E. contradiction.
Qed.

Lemma daily_step_keys (daily daily' : list (string * MinMax)) (item : json) :
  daily_step daily item = Ok daily' ->
  exists d, item_date item = Ok d /\
            map fst daily' = add_key (map fst daily) d.
Proof.
  unfold daily_step.
  destruct (item_date item) as [d|]; simpl; [|discriminate].
  destruct (item_temp item) as [t|]; simpl; [|discriminate].
  destruct (lookup d daily) as [v|].
  - destruct (py_min (v_min v) t) as [lo|]; simpl; [|discriminate].
    destruct (py_max (v_max v) t) as [hi|]; simpl; [|discriminate].
    intros [= <-]. exists d. split; [reflexivity | apply assign_keys].
  - intros [= <-]. exists d. split; [reflexivity | apply assign_keys].
Qed.

Lemma daily_loop_keys (raw : list json) :
  forall daily out, daily_loop daily raw = Ok out ->
    map fst out = fold_left add_key (sample_dates raw) (map fst daily) /\
    Forall2 (fun item d => item_date item = Ok d) raw (sample_dates raw).
Proof.
  induction raw as [|item rest IH]; simpl; intros daily out H.
  - injection H as <-. split; [reflexivity | constructor].
  - destruct (daily_step daily item) as [d'|] eqn:S; simpl in H; [|discriminate].
    destruct (daily_step_keys _ _ _ S) as (d & Hd & Hk).
    destruct (IH _ _ H) as (Hout & Hall).
    rewrite Hd. simpl. rewrite <- Hk. split; [assumption|].
    constructor; assumption.
Qed.

Lemma filter_filter_and (p q : string -> bool) (l : list string) :
  filter p (filter q l) = filter (fun x => q x && p x) l.
Proof.
  induction l as [|x l IH]; simpl; [reflexivity|].
  destruct (q x); simpl; [destruct (p x)|]; now rewrite IH.
Qed.

(** Reading the keys from left to right, as the loop does, gives the
    distinct dates in the order of their first occurrence. *)
Lemma fold_add_key (l : list string) :
  forall ks,
    fold_left add_key l ks =
    ks ++ filter (fun x => negb (existsb (String.eqb x) ks)) (first_seen l).
Proof.
  induction l as [|d r IH]; intro ks; simpl.
  - now rewrite app_nil_r.
  - rewrite IH. unfold add_key.
    destruct (existsb (String.eqb d) ks) eqn:E; simpl.
    + f_equal. rewrite filter_filter_and. apply filter_ext. intro x.
      destruct (String.eqb x d) eqn:X; simpl; [|reflexivity].
      apply String.eqb_eq in X. subst. now rewrite E.
    + rewrite <- app_assoc. simpl. f_equal. f_equal.
      rewrite filter_filter_and. apply filter_ext. intro x.
      rewrite existsb_app. simpl. rewrite orb_false_r.
      rewrite negb_orb. apply andb_comm.
Qed.

Lemma first_seen_In (l : list string) (x : string) :
  In x (first_seen l) <-> In x l.
Proof.
  induction l as [|d r IH]; simpl; [tauto|].
  rewrite filter_In, IH, negb_true_iff, String.eqb_neq.
  destruct (string_dec d x) as [->|N]; [tauto|].
  split; [tauto|]. intros [H|H]; [contradiction|].
  right. split; [assumption|]. congruence.
Qed.

Lemma first_seen_NoDup (l : list string) : NoDup (first_seen l).
Proof.
  induction l as [|d r IH]; simpl; constructor.
  - rewrite filter_In, negb_true_iff, String.eqb_neq. tauto.
  - now apply NoDup_filter.
Qed.

(** [first_seen] has as many elements as the list has distinct ones. *)
Lemma first_seen_length (l : list string) :
  List.length (first_seen l) = List.length (nodup string_dec l).
Proof.
  apply Permutation_length, NoDup_Permutation.
  - apply first_seen_NoDup.
  - apply NoDup_nodup.
  - intro x. now rewrite first_seen_In, nodup_In.
Qed.

Lemma daily_items_dates (daily : list (string * MinMax)) :
  map date (daily_items daily) = map fst daily.
Proof. unfold daily_items. rewrite map_map. reflexivity. Qed.

(** Every run of the aggregation that returns, on any decoded JSON, lists
    the dates in the order of their first occurrence. *)
Lemma daily_list_dates (raw : list json) (out : list DailySummary) :
  daily_list raw = Ok out ->
  map date out = first_seen (sample_dates raw) /\
  Forall2 (fun item d => item_date item = Ok d) raw (sample_dates raw).
Proof.
  unfold daily_list.
  destruct (daily_loop [] raw) as [daily|] eqn:L; simpl; [|discriminate].
  intros [= <-]. destruct (daily_loop_keys raw [] daily L) as (Hk & Hall).
  split; [|assumption].
  rewrite daily_items_dates, Hk, fold_add_key. simpl.
  induction (first_seen (sample_dates raw)) as [|x l IH]; simpl; congruence.
Qed.

(* ------------------------------------------------------------------ *)
(** *** What the aggregation returns on weather samples *)

Lemma fold_add_key_nil (l : list string) :
  fold_left add_key l [] = first_seen l.
Proof.
  rewrite fold_add_key. simpl.
  induction (first_seen l) as [|x r IH]; simpl; congruence.
Qed.

Lemma readings_numbers (raw : list json) (rs : list Reading) :
  Forall2 sample_of raw rs ->
  Forall (fun x => is_number (snd x) = true) rs.
Proof. induction 1 as [|item r raw rs H _ IH]; constructor; [apply H | assumption]. Qed.

(** The dict the loop builds from weather samples: it exists, its bounds
    are temperatures of the day, they enclose every temperature of a day
    without NaN, and its keys are the days in the order of their first
    sample. *)
Lemma daily_loop_spec (raw : list json) (rs : list Reading) :
  Forall2 sample_of raw rs ->
  exists daily,
    daily_list raw = Ok (daily_items daily) /\
    bounds_inv rs daily /\ covers rs daily /\
    map fst daily = first_seen (map fst rs) /\
    first_inv rs daily.
Proof.
  intro Hraw.
  assert (H0 : bounds_inv [] []) by (intros k v []).
  assert (C0 : covers [] []) by (intros k t []).
  assert (F0 : first_inv [] []) by (intros k v []).
  destruct (daily_loop_readings raw rs Hraw [] [] (Forall_nil _) H0 C0 F0)
    as (daily & Hloop & Hb & Hc & Hf).
  exists daily. simpl in *.
  split; [unfold daily_list; now rewrite Hloop|].
  split; [assumption|]. split; [assumption|]. split; [|assumption].
  destruct (daily_loop_keys raw [] daily Hloop) as (Hk & _).
  rewrite Hk. simpl. rewrite fold_add_key_nil.
  now rewrite (sample_dates_readings raw rs Hraw).
Qed.

(** C1, as amended: for every sequence of weather samples, given with the
    day and the temperature of each, the aggregation returns its list of
    summaries; the [min] and the [max] of a summary are temperatures of
    samples of its day, and [min <= max] (by value, and as Python's [<=]
    computes it) unless the first sample of the day has the temperature
    NaN: [min] and [max] are then that NaN. *)
Theorem daily_summary_bounds (raw : list json) (rs : list Reading) :
  Forall2 sample_of raw rs ->
  exists out, daily_list raw = Ok out /\
    forall s, In s out ->
      In (date s, t_min s) rs /\ In (date s, t_max s) rs /\
      exists t0, first_temp (date s) rs = Some t0 /\
        (is_nan t0 = false ->
         temp_le (t_min s) (t_max s) /\
         py_le (t_min s) (t_max s) = Ok true) /\
        (is_nan t0 = true -> t_min s = t0 /\ t_max s = t0).
Proof.
  intro Hraw.
  destruct (daily_loop_spec raw rs Hraw) as (daily & Hl & Hinv & _ & _ & Hf).
  pose proof (readings_numbers raw rs Hraw) as Hnum.
  rewrite Forall_forall in Hnum.
  exists (daily_items daily). split; [assumption|].
  intros s Hs. apply daily_items_In in Hs.
  destruct (Hinv _ _ Hs) as (Hlo & Hhi & _).
  destruct (Hf _ _ Hs) as (t0 & F0 & Hok & Hnan). simpl in *.
  split; [assumption|]. split; [assumption|].
  exists t0. split; [assumption|]. split; [|assumption].
  intro N0. specialize (Hok N0). split; [assumption|].
  apply py_le_numbers; auto.
  - apply (Hnum _ Hlo).
  - apply (Hnum _ Hhi).
Qed.

(** C2: for every sequence of weather samples, given with the day of
    each, the aggregation returns one summary per distinct day: the dates
    of the summaries are the distinct days of the samples in the order of
    their first occurrence, no date comes twice, and there are as many
    summaries as distinct days. *)
Theorem daily_one_summary_per_date (raw : list json) (rs : list Reading) :
  Forall2 sample_of raw rs ->
  exists out, daily_list raw = Ok out /\
    map date out = first_seen (map fst rs) /\
    NoDup (map date out) /\
    List.length out = List.length (nodup string_dec (map fst rs)).
Proof.
  intro Hraw.
  destruct (daily_loop_spec raw rs Hraw) as (daily & Hl & _ & _ & Hk & _).
  exists (daily_items daily). split; [assumption|].
  assert (Hd : map date (daily_items daily) = first_seen (map fst rs))
    by (now rewrite daily_items_dates).
  split; [assumption|]. split.
  - rewrite Hd. apply first_seen_NoDup.
  - rewrite <- first_seen_length, <- Hd. now rewrite length_map.
Qed.

(* ------------------------------------------------------------------ *)
(** *** Concrete runs *)

(** C3: the entries (01-01, 10), (01-01, 15), (01-02, 5) aggregate to
    (01-01, min 10, max 15) followed by (01-02, min 5, max 5); a time of day
    after the date changes nothing. *)
Theorem daily_list_example :
  daily_list forecast_example =
    Ok [ {| date := "01-01"; t_min := JInt 10; t_max := JInt 15 |};
         {| date := "01-02"; t_min := JInt 5; t_max := JInt 5 |} ] /\
  daily_list forecast_example_timed = daily_list forecast_example.
Proof. split; reflexivity. Qed.

(** C4: the aggregation of no entry is the empty list of summaries. *)
Theorem daily_list_empty : daily_list [] = Ok [].
Proof. reflexivity. Qed.

Lemma forecast_example_samples : Forall WeatherSample forecast_example.
Proof. repeat constructor. Qed.

Lemma day_0101 : "01-01" <> "" /\ one_word "01-01".
Proof. split; [discriminate | repeat constructor]. Qed.

Lemma day_0102 : "01-02" <> "" /\ one_word "01-02".
Proof. split; [discriminate | repeat constructor]. Qed.

Lemma forecast_example_readings :
  Forall2 sample_of forecast_example forecast_readings /\
  Forall2 sample_of forecast_example_timed forecast_readings.
Proof.
  destruct day_0101 as (N1 & W1). destruct day_0102 as (N2 & W2).
  unfold forecast_example, forecast_example_timed, forecast_readings.
  split.
  - constructor; [apply (proj1 (sample_of_sample "01-01" (JInt 10) N1 W1 eq_refl))|].
    constructor; [apply (proj1 (sample_of_sample "01-01" (JInt 15) N1 W1 eq_refl))|].
    constructor; [apply (proj1 (sample_of_sample "01-02" (JInt 5) N2 W2 eq_refl))|].
    constructor.
  - constructor; [apply (proj2 (sample_of_sample "01-01" (JInt 10) N1 W1 eq_refl))|].
    constructor; [apply (proj2 (sample_of_sample "01-01" (JInt 15) N1 W1 eq_refl))|].
    constructor; [apply (proj2 (sample_of_sample "01-02" (JInt 5) N2 W2 eq_refl))|].
    constructor.
Qed.

Lemma nan_then_five_readings :
  Forall2 sample_of nan_then_five [("01-01", JSpecial NaN); ("01-01", JInt 5)].
Proof.
  destruct day_0101 as (N1 & W1). unfold nan_then_five.
  constructor; [apply (proj2 (sample_of_sample "01-01" (JSpecial NaN) N1 W1 eq_refl))|].
  constructor; [apply (proj2 (sample_of_sample "01-01" (JInt 5) N1 W1 eq_refl))|].
  constructor.
Qed.

Lemma daily_summary_bounds_witness :
  exists out, daily_list forecast_example_timed = Ok out /\
    forall s, In s out ->
      In (date s, t_min s) forecast_readings /\
      In (date s, t_max s) forecast_readings /\
      exists t0, first_temp (date s) forecast_readings = Some t0 /\
        (is_nan t0 = false ->
         temp_le (t_min s) (t_max s) /\
         py_le (t_min s) (t_max s) = Ok true) /\
        (is_nan t0 = true -> t_min s = t0 /\ t_max s = t0).
Proof.
  apply (daily_summary_bounds forecast_example_timed forecast_readings).
  exact (proj2 forecast_example_readings).
Defined.

(** C1, as stated, fails: two weather samples of one day, the first with
    the temperature NaN, give one summary whose [min] and [max] are NaN;
    [min <= max] is false there, as Python computes it and by value. *)
Lemma daily_summary_nan :
  Forall2 sample_of nan_then_five
    [("01-01", JSpecial NaN); ("01-01", JInt 5)] /\
  exists s,
    daily_list nan_then_five = Ok [s] /\
    s = {| date := "01-01"; t_min := JSpecial NaN; t_max := JSpecial NaN |} /\
    py_le (t_min s) (t_max s) = Ok false /\
    ~ temp_le (t_min s) (t_max s).
Proof.
  split; [exact nan_then_five_readings|].
  eexists. split; [reflexivity|]. split; [reflexivity|].
  split; [reflexivity|]. simpl.
  intros (x & y & [= <-] & [= <-] & []).
Qed.

Lemma daily_one_summary_per_date_witness :
  exists out, daily_list forecast_example_timed = Ok out /\
    map date out = first_seen (map fst forecast_readings) /\
    NoDup (map date out) /\
    List.length out =
      List.length (nodup string_dec (map fst forecast_readings)).
Proof.
  apply (daily_one_summary_per_date forecast_example_timed forecast_readings).
  exact (proj2 forecast_example_readings).
Defined.

(* ================================================================== *)
(** ** The history query *)

Section History.

Lemma insert_desc_perm (r : WeatherRecord) (l : list WeatherRecord) :
  Permutation (r :: l) (insert_desc r l).
Proof.
  induction l as [|x l IH]; simpl; [reflexivity|].
  destruct (id x <=? id r)%Z; [reflexivity|].
  rewrite perm_swap. now apply perm_skip.
Qed.

Lemma order_by_id_desc_perm (rows : list WeatherRecord) :
  Permutation rows (order_by_id_desc rows).
Proof.
  induction rows as [|r rows IH]; simpl; [constructor|].
  rewrite <- insert_desc_perm. now apply perm_skip.
Qed.

Lemma insert_desc_sorted (r : WeatherRecord) (l : list WeatherRecord) :
  StronglySorted not_older l -> StronglySorted not_older (insert_desc r l).
Proof.
  induction 1 as [|x l Hl IH Hx]; simpl.
  - repeat constructor.
  - destruct (id x <=? id r)%Z eqn:C.
    + apply Z.leb_le in C. constructor.
      * now constructor.
      * constructor; [exact C|].
        eapply Forall_impl; [|exact Hx].
        unfold not_older. intros; lia.
    + apply Z.leb_gt in C. constructor; [assumption|].
      rewrite <- insert_desc_perm. constructor; [|assumption].
      unfold not_older. lia.
Qed.

Lemma order_by_id_desc_sorted (rows : list WeatherRecord) :
  StronglySorted not_older (order_by_id_desc rows).
Proof.
  induction rows as [|r rows IH]; simpl.
  - constructor.
  - now apply insert_desc_sorted.
Qed.

(** With a primary key the order is strict. *)
Lemma sorted_strict (l : list WeatherRecord) :
  StronglySorted not_older l -> NoDup (map id l) -> StronglySorted newer l.
Proof.
  induction 1 as [|x l Hl IH Hx]; simpl; intro Hnd; constructor.
  - apply IH. now inversion Hnd.
  - inversion Hnd as [|? ? Hnotin _]; subst.
    rewrite Forall_forall in *. intros y Hy.
    specialize (Hx y Hy). unfold newer, not_older in *.
    assert (id y <> id x)
      by (intro E; apply Hnotin; rewrite <- E; now apply in_map).
    lia.
Qed.

Lemma firstn_In {A : Type} (n : nat) (l : list A) (x : A) :
  In x (firstn n l) -> In x l.
Proof.
  revert l. induction n as [|n IH]; intros [|y l]; simpl; try tauto.
  intros [H|H]; [now left | right; now apply IH].
Qed.

Lemma sorted_firstn {R : WeatherRecord -> WeatherRecord -> Prop} (n : nat) l :
  StronglySorted R l -> StronglySorted R (firstn n l).
Proof.
  intro H. revert n. induction H as [|x l Hl IH Hx]; intros [|n]; simpl;
    constructor; auto.
  rewrite Forall_forall in *. intros y Hy. apply Hx.
  eapply firstn_In; eauto.
Qed.

Lemma sorted_app {R : WeatherRecord -> WeatherRecord -> Prop} l1 l2 :
  StronglySorted R (l1 ++ l2) ->
  forall a b, In a l1 -> In b l2 -> R a b.
Proof.
  induction l1 as [|x l1 IH]; simpl; intros H a b Ha Hb; [contradiction|].
  inversion H as [|? ? Hl Hx]; subst. destruct Ha as [->|Ha].
  - rewrite Forall_forall in Hx. apply Hx. rewrite in_app_iff. tauto.
  - now apply IH.
Qed.

Lemma order_by_id_desc_strict (d : Database) :
  primary_key d -> StronglySorted newer (order_by_id_desc (weather d)).
Proof.
  intro Hpk. apply sorted_strict.
  - apply order_by_id_desc_sorted.
  - unfold primary_key in Hpk.
    eapply Permutation_NoDup; [|exact Hpk].
    apply Permutation_map, order_by_id_desc_perm.
Qed.

(** Rows stored with growing ids come back reversed. *)
Lemma insert_desc_oldest (r : WeatherRecord) (l : list WeatherRecord) :
  Forall (fun y => (id r < id y)%Z) l -> insert_desc r l = l ++ [r].
Proof.
  induction 1 as [|y l Hy _ IH]; simpl; [reflexivity|].
  apply Z.leb_gt in Hy. rewrite Hy. now rewrite IH.
Qed.

Lemma order_by_id_desc_rev (rows : list WeatherRecord) :
  StronglySorted (fun a b => (id a < id b)%Z) rows ->
  order_by_id_desc rows = rev rows.
Proof.
  induction 1 as [|x l Hl IH Hx]; simpl; [reflexivity|].
  rewrite IH. apply insert_desc_oldest.
  rewrite Forall_forall in *. intros y Hy. apply Hx. now apply in_rev.
Qed.

Lemma append_only_primary_key (d : Database) :
  append_only d -> primary_key d.
Proof.
  intros [H _]. unfold primary_key.
  induction H as [|x l Hl IH Hx]; simpl; constructor; [|assumption].
  rewrite in_map_iff. intros (y & E & Hy).
  rewrite Forall_forall in Hx. specialize (Hx y Hy). lia.
Qed.

Lemma max_rowid_bound (rows : list WeatherRecord) :
  Forall (fun r => (id r <= max_rowid rows)%Z) rows.
Proof.
  induction rows as [|x l IH]; simpl; constructor; [lia|].
  eapply Forall_impl; [|exact IH]. simpl. intros; lia.
Qed.

Lemma sorted_snoc (l : list WeatherRecord) (r : WeatherRecord) :
  StronglySorted (fun a b => (id a < id b)%Z) l ->
  Forall (fun y => (id y < id r)%Z) l ->
  StronglySorted (fun a b => (id a < id b)%Z) (l ++ [r]).
Proof.
  induction 1 as [|x l Hl IH Hx]; simpl; intro Hr.
  - repeat constructor.
  - inversion Hr; subst. constructor; [now apply IH|].
    apply Forall_app. split; [assumption | now constructor].
Qed.

(** An INSERT keeps the table append-only and puts its row last, under the
    next rowid. *)
Lemma insert_weather_append_only c t d stamp (db0 db1 : Database) :
  insert_weather c t d stamp db0 = Ok db1 ->
  exists t' d', adapt t = Ok t' /\ adapt d = Ok d' /\
    db1 = with_row db0 c t' d' stamp /\
    (append_only db0 -> append_only db1).
Proof.
  unfold insert_weather.
  destruct (adapt t) as [t'|]; simpl; [|discriminate].
  destruct (adapt d) as [d'|]; simpl; [|discriminate].
  intros [= <-]. exists t', d'. repeat split; simpl.
  - apply sorted_snoc; [apply H|].
    eapply Forall_impl; [|apply max_rowid_bound].
    simpl. unfold next_rowid. intros; lia.
  - apply Forall_app. split.
    + eapply Forall_impl; [|apply max_rowid_bound].
      simpl. unfold next_rowid. intros; lia.
    + constructor; simpl; [lia | constructor].
Qed.

(** C6: [GET /api/history] answers 200 with the rows [select_recent 6]
    picks, and changes nothing.  They are at most six (all rows when the
    table holds fewer), rows of the table, in strictly descending order of
    [id], and every row left out is older than every row returned; in a
    table filled by INSERTs alone they are the last six rows inserted, the
    latest first. *)
Theorem api_history_most_recent (E : Env) (s : State) :
  primary_key (db s) ->
  let rows := select_recent 6 (db s) in
  dispatch (api_history E) s =
    ((Jsonify (JArr (map dict_row rows)), 200%Z), s) /\
  (List.length rows <= 6)%nat /\
  List.length rows = Nat.min 6 (List.length (weather (db s))) /\
  StronglySorted newer rows /\
  (forall r, In r rows -> In r (weather (db s))) /\
  (forall r r', In r (weather (db s)) -> ~ In r rows -> In r' rows ->
                (id r < id r')%Z) /\
  (append_only (db s) -> rows = firstn 6 (rev (weather (db s)))).
Proof.
  intros Hpk rows.
  pose proof (order_by_id_desc_perm (weather (db s))) as Hperm.
  pose proof (order_by_id_desc_strict (db s) Hpk) as Hsorted.
  assert (Hlen : List.length rows = Nat.min 6 (List.length (weather (db s)))).
  { unfold rows, select_recent. rewrite length_firstn.
    now rewrite <- (Permutation_length Hperm). }
  split; [reflexivity|]. split; [lia|]. split; [exact Hlen|].
  split; [now apply sorted_firstn|]. split; [|split].
  - intros r Hr. apply (Permutation_in r (Permutation_sym Hperm)).
    eapply firstn_In; exact Hr.
  - intros r r' Hr Hout Hr'.
    apply (Permutation_in r Hperm) in Hr.
    rewrite <- (firstn_skipn 6 (order_by_id_desc (weather (db s)))) in Hr, Hsorted.
    apply in_app_or in Hr. destruct Hr as [Hr|Hr]; [contradiction|].
    exact (sorted_app _ _ Hsorted r' r Hr' Hr).
  - intros [Hasc _]. unfold rows, select_recent.
    now rewrite order_by_id_desc_rev.
Qed.

End History.

(* ================================================================== *)
(** ** The views *)

Section ViewFacts.

Variable E : Env.

#[local] Arguments query : simpl never.
#[local] Arguments weather_url : simpl never.
#[local] Arguments forecast_url : simpl never.

(** Unfolds a view down to the calls of the environment. *)
Ltac run_view :=
  unfold dispatch, api_weather, show_weather_page, today_weather,
    hourly_weather, weekly_weather, daily_weather, api_history, render,
    rendered, get_json, try_except, bind, lift, ret, http_get, logged;
  simpl.

Lemma not_200 (resp : Response) :
  status_code resp <> 200%Z -> negb (status_code resp =? 200)%Z = true.
Proof. intro H. apply negb_true_iff, Z.eqb_neq, H. Qed.

(** C7: a body without [city], or whose [city] strips to the empty string,
    is answered at once with [{"error": "City required"}] and status 400;
    the state is left as it was: no provider call, no row. *)
Theorem api_weather_city_required (s : State) (kv : list (string * json)) :
  (lookup "city" kv = None \/
   exists c, lookup "city" kv = Some (JStr c) /\ str_strip c = "") ->
  dispatch (api_weather E (Some (JObj kv))) s =
    ((Jsonify (error_json "City required"), 400%Z), s).
Proof.
  intros [H|(c & H & Hc)]; run_view; rewrite H; simpl.
  - reflexivity.
  - rewrite Hc. reflexivity.
Qed.

(** C5: when the provider answers with a status other than 200, every view
    that fetches replies 404 with its not-found message, and the state
    changes by the logged call only: the database is the same. *)
Theorem provider_error_404 (s : State) (city : string) (resp : Response) :
  status_code resp <> 200%Z ->
  (requests_get E weather_url (query E city) 8 = Ok resp ->
   (forall kv c,
       lookup "city" kv = Some (JStr c) -> str_strip c = city -> city <> "" ->
       dispatch (api_weather E (Some (JObj kv))) s =
         ((Jsonify (error_json "City not found or API error"), 404%Z),
          logged E weather_url city s)) /\
   dispatch (show_weather_page E city) s =
     ((Text ("No data found for '" ++ city ++ "'"), 404%Z),
      logged E weather_url city s) /\
   dispatch (today_weather E city) s =
     ((Text ("No data found for '" ++ city ++ "'"), 404%Z),
      logged E weather_url city s)) /\
  (requests_get E forecast_url (query E city) 8 = Ok resp ->
   dispatch (hourly_weather E city) s =
     ((Text ("No hourly data found for '" ++ city ++ "'"), 404%Z),
      logged E forecast_url city s) /\
   dispatch (daily_weather E city) s =
     ((Text ("No daily data found for '" ++ city ++ "'"), 404%Z),
      logged E forecast_url city s) /\
   dispatch (weekly_weather E city) s =
     ((Text ("No daily data found for '" ++ city ++ "'"), 404%Z),
      logged E forecast_url city s)) /\
  (forall u, db (logged E u city s) = db s).
Proof.
  intro Hst. apply not_200 in Hst.
  split; [|split].
  - intro Hget. split; [|split].
    + intros kv c Hc Hs Hne. run_view. rewrite Hc. simpl. rewrite Hs.
      apply String.eqb_neq in Hne. rewrite Hne.
      rewrite Hget, Hst. reflexivity.
    + run_view. rewrite Hget, Hst. reflexivity.
    + run_view. rewrite Hget, Hst. reflexivity.
  - intro Hget. repeat split; run_view; rewrite Hget, Hst; reflexivity.
  - reflexivity.
Qed.

(** C8: the weekly view is the daily view. *)
Theorem weekly_is_daily (city : string) :
  weekly_weather E city = daily_weather E city /\
  forall s, dispatch (weekly_weather E city) s =
            dispatch (daily_weather E city) s.
Proof. split; reflexivity. Qed.

(** C9: on a 200 answer whose [list] is a list, the hourly view renders
    [hourly.html] with the first eight entries of the list, in their order,
    and nothing else of it; a list of at most eight entries is passed
    whole. *)
Theorem hourly_first_eight (s : State) (city : string) (resp : Response)
    (kv : list (string * json)) (l : list json) :
  requests_get E forecast_url (query E city) 8 = Ok resp ->
  status_code resp = 200%Z ->
  resp_json resp = Ok (JObj kv) ->
  lookup "list" kv = Some (JArr l) ->
  dispatch (hourly_weather E city) s =
    (rendered E "hourly.html"
       [("city", JStr city); ("data", JArr (firstn 8 l))],
     logged E forecast_url city s) /\
  (List.length (firstn 8 l) <= 8)%nat /\
  l = firstn 8 l ++ skipn 8 l /\
  ((List.length l <= 8)%nat -> firstn 8 l = l).
Proof.
  intros Hget Hst Hjs Hl. split; [|split; [|split]].
  - run_view. rewrite Hget, Hst. simpl.
    rewrite Hjs. simpl. rewrite Hl. simpl.
    destruct (render_template E "hourly.html" _); reflexivity.
  - rewrite length_firstn. lia.
  - symmetry. apply firstn_skipn.
  - intro H. now apply firstn_all2.
Qed.

(* ------------------------------------------------------------------ *)
(** *** Which views write *)

Lemma keeps_db_ret {A} (a : A) : keeps_db (ret a).
Proof. intro s. reflexivity. Qed.

Lemma keeps_db_lift {A} (m : exc A) : keeps_db (lift m).
Proof. intro s. reflexivity. Qed.

Lemma keeps_db_http_get u p t : keeps_db (http_get E u p t).
Proof. intro s. reflexivity. Qed.

Lemma keeps_db_bind {A B} (m : M A) (k : A -> M B) :
  keeps_db m -> (forall a, keeps_db (k a)) -> keeps_db (bind m k).
Proof.
  intros Hm Hk s. unfold bind. specialize (Hm s).
  destruct (m s) as [[a|e] s']; simpl in *; [|assumption].
  now rewrite Hk.
Qed.

Lemma keeps_db_try {A} (body : M A) (h : exn -> M A) :
  keeps_db body -> (forall e, keeps_db (h e)) -> keeps_db (try_except body h).
Proof.
  intros Hb Hh s. unfold try_except. specialize (Hb s).
  destruct (body s) as [[a|e] s']; simpl in *; [assumption|].
  now rewrite Hh.
Qed.

Lemma keeps_db_if {A} (b : bool) (m1 m2 : M A) :
  keeps_db m1 -> keeps_db m2 -> keeps_db (if b then m1 else m2).
Proof. now destruct b. Qed.

Lemma keeps_db_dispatch (view : M Reply) (s : State) :
  keeps_db view -> db (snd (dispatch view s)) = db s.
Proof.
  intro H. unfold dispatch. specialize (H s).
  destruct (view s) as [[r|e] s']; simpl in *; [assumption|].
  now destruct e.
Qed.

Ltac keeps :=
  repeat first
    [ apply keeps_db_ret | apply keeps_db_lift | apply keeps_db_http_get
    | apply keeps_db_if
    | apply keeps_db_try; [|intro]
    | apply keeps_db_bind; [|intro] ].

(** The today, hourly, daily and weekly views and the history never write
    to the database. *)
Lemma read_only_views (city : string) :
  keeps_db (today_weather E city) /\ keeps_db (hourly_weather E city) /\
  keeps_db (daily_weather E city) /\ keeps_db (weekly_weather E city) /\
  keeps_db (api_history E).
Proof.
  unfold weekly_weather, today_weather, hourly_weather, daily_weather,
    api_history, render.
  repeat split; keeps.
Qed.

(** A row is written only after the provider answered 200. *)
Lemma insert_only_after_200 (s : State) :
  (forall payload,
      db (snd (dispatch (api_weather E payload) s)) <> db s ->
      exists c resp, requests_get E weather_url (query E c) 8 = Ok resp /\
                     status_code resp = 200%Z) /\
  (forall city,
      db (snd (dispatch (show_weather_page E city) s)) <> db s ->
      exists resp, requests_get E weather_url (query E city) 8 = Ok resp /\
                   status_code resp = 200%Z).
Proof.
  split.
  - intros payload. run_view.
    destruct payload as [data|]; simpl; [|congruence].
    destruct (py_get data "city" (JStr "")) as [c|[]]; simpl; try congruence.
    destruct (py_strip c) as [city|[]]; simpl; try congruence.
    destruct (String.eqb city ""); simpl; [congruence|].
    destruct (requests_get E weather_url (query E city) 8) as [resp|] eqn:G;
      simpl; [|congruence].
    destruct (status_code resp =? 200)%Z eqn:S; simpl; [|congruence].
    intros _. exists city, resp. split; [exact G | now apply Z.eqb_eq].
  - intros city. run_view.
    destruct (requests_get E weather_url (query E city) 8) as [resp|] eqn:G;
      simpl; [|congruence].
    destruct (status_code resp =? 200)%Z eqn:S; simpl; [|congruence].
    intros _. exists resp. split; [reflexivity | now apply Z.eqb_eq].
Qed.

(* ------------------------------------------------------------------ *)
(** *** Missing fields in a 200 answer *)

Lemma temp_default (jk : list (string * json)) :
  main_usable jk = true ->
  exists main, py_get (JObj jk) "main" (JObj []) = Ok main /\
               py_get main "temp" JNull = Ok (temp_or_null jk).
Proof.
  unfold main_usable, temp_or_null. simpl.
  destruct (lookup "main" jk) as [[]|]; try discriminate; intros _.
  - eexists; split; [reflexivity|]. simpl.
    now destruct (lookup "temp" kv).
  - eexists; split; reflexivity.
Qed.

Lemma description_default (jk : list (string * json)) :
  weather_usable jk = true ->
  exists w w0,
    py_get (JObj jk) "weather" JNull = Ok w /\
    py_getitem0 (py_or w (JArr [JObj []])) = Ok w0 /\
    py_get w0 "description" (JStr "") = Ok (description_or_empty jk).
Proof.
  unfold weather_usable, description_or_empty, py_or. simpl.
  destruct (lookup "weather" jk) as [w|].
  - intro H. exists w. apply orb_true_iff in H. destruct H as [H|H].
    + apply negb_true_iff in H. rewrite H.
      exists (JObj []). repeat split.
      destruct w as [| | | | |[|[] ?]| |]; try reflexivity; discriminate.
    + destruct w as [| | | | |[|[] ?]| |]; try discriminate.
      simpl. eexists. repeat split. simpl.
      now destruct (lookup "description" kv).
  - intros _. exists JNull, (JObj []). repeat split.
Qed.

(** C10, as amended: on a 200 answer that is an object whose [main] is
    absent or an object and whose [weather] is absent, falsy or a list that
    starts with an object, and whose temperature and description are values
    SQLite stores, [POST /api/weather] with a city replies 200 and appends
    one row.  The temperature is [null] when [main.temp] is missing and the
    description is the empty string when [weather] is absent or falsy. *)
Theorem api_weather_defaults (s : State) (kv jk : list (string * json))
    (c city : string) (resp : Response) (t d : sqlval) :
  lookup "city" kv = Some (JStr c) -> str_strip c = city -> city <> "" ->
  requests_get E weather_url (query E city) 8 = Ok resp ->
  status_code resp = 200%Z ->
  resp_json resp = Ok (JObj jk) ->
  main_usable jk = true -> weather_usable jk = true ->
  adapt (temp_or_null jk) = Ok t ->
  adapt (description_or_empty jk) = Ok d ->
  dispatch (api_weather E (Some (JObj kv))) s =
    ((Jsonify (JObj [("city", JStr city);
                     ("temperature", temp_or_null jk);
                     ("description", description_or_empty jk);
                     ("dt", JStr (strftime_now E stamp_format))]), 200%Z),
     {| db := with_row (db s) city t d (strftime_now E stamp_format);
        sent := sent (logged E weather_url city s) |}) /\
  (main_temp (JObj jk) = None -> temp_or_null jk = JNull /\ t = SqlNull) /\
  ((forall w, lookup "weather" jk = Some w -> py_truthy w = false) ->
   description_or_empty jk = JStr "" /\ d = SqlText "").
Proof.
  intros Hc Hs Hne Hget Hst Hjs Hmain Hw Ht Hd.
  apply String.eqb_neq in Hne.
  destruct (temp_default jk Hmain) as (main & Hm1 & Hm2).
  destruct (description_default jk Hw) as (w & w0 & Hw1 & Hw2 & Hw3).
  split; [|split].
  - unfold dispatch, api_weather, get_json, try_except, bind, lift, ret.
    cbn [py_get]. rewrite Hc. cbn [py_strip]. rewrite Hs, Hne.
    unfold http_get. rewrite Hget, Hst. cbn [Z.eqb Pos.eqb negb].
    rewrite Hjs, Hm1, Hm2, Hw1, Hw2, Hw3.
    unfold execute_insert, insert_weather. cbn [db].
    rewrite Ht, Hd. reflexivity.
  - intro Hnone. assert (Hnull : temp_or_null jk = JNull).
    { unfold temp_or_null. simpl in Hnone.
      destruct (lookup "main" jk) as [[]|]; try reflexivity.
      now rewrite Hnone. }
    split; [assumption|]. rewrite Hnull in Ht. simpl in Ht. congruence.
  - intro Hfalsy. assert (Hempty : description_or_empty jk = JStr "").
    { unfold description_or_empty.
      destruct (lookup "weather" jk) as [w'|] eqn:L; [|reflexivity].
      specialize (Hfalsy w' eq_refl).
      destruct w' as [| | | | |[|[] ?]| |]; try reflexivity; discriminate. }
    split; [assumption|]. rewrite Hempty in Hd. simpl in Hd. congruence.
Qed.

End ViewFacts.

(* ================================================================== *)
(** ** Runs on explicit inputs *)

Lemma eight_rows_primary_key : primary_key (db eight_rows).
Proof.
  unfold primary_key. simpl.
  repeat (constructor; [simpl; intuition discriminate|]). constructor.
Qed.

Lemma api_history_most_recent_witness :
  primary_key (db eight_rows) /\
  dispatch (api_history (env_answering not_found)) eight_rows =
    ((Jsonify (JArr (map dict_row [row 8; row 7; row 6; row 5; row 4; row 3])),
      200%Z), eight_rows) /\
  StronglySorted newer (select_recent 6 (db eight_rows)).
Proof.
  split; [exact eight_rows_primary_key|].
  pose proof (api_history_most_recent (env_answering not_found) eight_rows
                eight_rows_primary_key) as H.
  cbv zeta in H. split; [apply H | apply H].
Defined.

Lemma api_weather_city_required_witness :
  (lookup "city" [("city", JStr "   ")] = None \/
   exists c, lookup "city" [("city", JStr "   ")] = Some (JStr c) /\
             str_strip c = "") /\
  dispatch (api_weather (env_answering not_found)
              (Some (JObj [("city", JStr "   ")]))) fresh =
    ((Jsonify (error_json "City required"), 400%Z), fresh).
Proof.
  assert (H : lookup "city" [("city", JStr "   ")] = None \/
              exists c, lookup "city" [("city", JStr "   ")] = Some (JStr c) /\
                        str_strip c = "")
    by (right; exists "   "; split; reflexivity).
  split; [exact H|].
  exact (api_weather_city_required (env_answering not_found) fresh _ H).
Defined.

Lemma provider_error_404_witness :
  status_code {| status_code := 404; resp_json := Raise JSONDecodeError |}
    <> 200%Z /\
  dispatch (show_weather_page (env_answering not_found) "Atlantis") fresh =
    ((Text "No data found for 'Atlantis'", 404%Z),
     logged (env_answering not_found) weather_url "Atlantis" fresh) /\
  dispatch (api_weather (env_answering not_found) oslo) fresh =
    ((Jsonify (error_json "City not found or API error"), 404%Z),
     logged (env_answering not_found) weather_url "Oslo" fresh).
Proof.
  assert (H : status_code
                {| status_code := 404; resp_json := Raise JSONDecodeError |}
              <> 200%Z) by (simpl; lia).
  split; [exact H|]. split.
  - exact (proj1 (proj2 (proj1
             (provider_error_404 (env_answering not_found) fresh "Atlantis" _ H)
             eq_refl))).
  - refine (proj1 (proj1
             (provider_error_404 (env_answering not_found) fresh "Oslo" _ H)
             eq_refl) [("city", JStr " Oslo ")] " Oslo " eq_refl eq_refl _).
    discriminate.
Defined.

Lemma hourly_first_eight_witness :
  dispatch (hourly_weather
              (env_answering (ok200 (JObj [("list", JArr ten_entries)])))
              "Oslo") fresh =
    ((Text "hourly.html", 200%Z),
     logged (env_answering (ok200 (JObj [("list", JArr ten_entries)])))
            forecast_url "Oslo" fresh) /\
  List.length ten_entries = 10%nat /\
  (List.length (firstn 8 ten_entries) <= 8)%nat.
Proof.
  pose proof (hourly_first_eight
                (env_answering (ok200 (JObj [("list", JArr ten_entries)])))
                fresh "Oslo" _ _ ten_entries eq_refl eq_refl eq_refl eq_refl)
    as H.
  split; [apply H|]. split; [reflexivity | apply H].
Defined.

(** C10, as stated, fails: the answer has status 200 and no [main.temp],
    since its [main] is [null]; the view replies 500 and appends no row. *)
Lemma api_weather_null_main :
  main_temp null_main = None /\
  dispatch (api_weather (env_answering (ok200 null_main)) oslo) fresh =
    ((Jsonify (error_json "error"), 500%Z),
     logged (env_answering (ok200 null_main)) weather_url "Oslo" fresh) /\
  db (logged (env_answering (ok200 null_main)) weather_url "Oslo" fresh) =
    db fresh.
Proof. repeat split. Qed.

Lemma api_weather_defaults_witness :
  main_temp (JObj []) = None /\
  dispatch (api_weather (env_answering (ok200 (JObj []))) oslo) fresh =
    ((Jsonify (JObj [("city", JStr "Oslo"); ("temperature", JNull);
                     ("description", JStr "");
                     ("dt", JStr "01-Jan-2024 09:30:00 AM")]), 200%Z),
     {| db := with_row (db fresh) "Oslo" SqlNull (SqlText "")
                "01-Jan-2024 09:30:00 AM";
        sent := sent (logged (env_answering (ok200 (JObj []))) weather_url
                        "Oslo" fresh) |}).
Proof.
  split; [reflexivity|].
  refine (proj1 (api_weather_defaults (env_answering (ok200 (JObj []))) fresh
                   [("city", JStr " Oslo ")] [] " Oslo " "Oslo" _
                   SqlNull (SqlText "")
                   eq_refl eq_refl _ eq_refl eq_refl eq_refl eq_refl eq_refl
                   eq_refl eq_refl)).
  discriminate.
Defined.

(* ================================================================== *)
(** ** More about the aggregation *)

(** X1: on a day without NaN the bounds of the summary enclose the
    temperature of every sample of the day: with C1, [min] is the least
    and [max] the greatest temperature of the day. *)
Theorem daily_bounds_extremal (raw : list json) (rs : list Reading)
    (out : list DailySummary) :
  Forall2 sample_of raw rs -> daily_list raw = Ok out ->
  forall s t, In s out -> In (date s, t) rs -> no_nan_on (date s) rs ->
    temp_le (t_min s) t /\ temp_le t (t_max s).
Proof.
  intros Hraw Hout s t Hs Ht Hno.
  destruct (daily_loop_spec raw rs Hraw) as (daily & Hl & _ & Hcov & Hk & _).
  rewrite Hl in Hout. injection Hout as <-.
  apply daily_items_In in Hs.
  assert (Hnd : NoDup (map fst daily))
    by (rewrite Hk; apply first_seen_NoDup).
  destruct (Hcov _ t Ht) as (v & Lv & Hv).
  rewrite (In_lookup _ _ _ Hnd Hs) in Lv. injection Lv as <-.
  now apply Hv.
Qed.

(** X2: when the samples of a day all carry the same temperature, in
    particular when the day has one sample, [min] and [max] of its summary
    are that temperature; unless it is a NaN, they are equal for Python's
    [==]. *)
Theorem daily_constant_day (raw : list json) (rs : list Reading)
    (out : list DailySummary) (s : DailySummary) (t : json) :
  Forall2 sample_of raw rs -> daily_list raw = Ok out -> In s out ->
  (forall t', In (date s, t') rs -> t' = t) ->
  t_min s = t /\ t_max s = t /\
  (is_nan t = false -> py_eq (t_min s) (t_max s) = true).
Proof.
  intros Hraw Hout Hs Hsame.
  destruct (daily_loop_spec raw rs Hraw) as (daily & Hl & Hinv & _ & _).
  pose proof (readings_numbers raw rs Hraw) as Hnum.
  rewrite Forall_forall in Hnum.
  rewrite Hl in Hout. injection Hout as <-.
  apply daily_items_In in Hs.
  destruct (Hinv _ _ Hs) as (Hlo & Hhi & _). simpl in *.
  pose proof (Hnum _ Hlo) as Nlo. simpl in Nlo.
  rewrite (Hsame _ Hlo) in *. rewrite (Hsame _ Hhi).
  repeat split. intro Hnan. now apply py_eq_number.
Qed.

(** X3: on a day without NaN the bounds do not depend on the order of
    the samples: the same samples in another order give that day bounds of
    the same value. *)
Theorem daily_bounds_order_independent (raw raw' : list json)
    (rs rs' : list Reading) (out out' : list DailySummary) :
  Forall2 sample_of raw rs -> Forall2 sample_of raw' rs' ->
  Permutation rs rs' ->
  daily_list raw = Ok out -> daily_list raw' = Ok out' ->
  forall s, In s out -> no_nan_on (date s) rs ->
    exists s', In s' out' /\ date s' = date s /\
               temp_eq (t_min s') (t_min s) /\ temp_eq (t_max s') (t_max s).
Proof.
  intros Hraw Hraw' Hperm Hout Hout' s Hs Hno.
  assert (Hno' : no_nan_on (date s) rs').
  { intros t Ht. apply Hno.
    now apply (Permutation_in _ (Permutation_sym Hperm)). }
  destruct (daily_loop_spec raw rs Hraw) as (daily & Hl & Hinv & Hcov & Hk & _).
  destruct (daily_loop_spec raw' rs' Hraw')
    as (daily' & Hl' & Hinv' & Hcov' & _ & _).
  rewrite Hl in Hout. injection Hout as <-.
  rewrite Hl' in Hout'. injection Hout' as <-.
  apply daily_items_In in Hs.
  assert (Hnd : NoDup (map fst daily))
    by (rewrite Hk; apply first_seen_NoDup).
  pose proof (In_lookup _ _ _ Hnd Hs) as Ls.
  destruct (Hinv _ _ Hs) as (Hlo & Hhi & _). simpl in Hlo, Hhi.
  destruct (Hcov' _ _ (Permutation_in _ Hperm Hlo)) as (v' & Lv' & A).
  destruct (Hcov' _ _ (Permutation_in _ Hperm Hhi)) as (v'' & Lv'' & B).
  rewrite Lv' in Lv''. injection Lv'' as <-.
  destruct (A Hno') as (A1 & _). destruct (B Hno') as (_ & B2).
  destruct (Hinv' _ _ (lookup_In _ _ _ Lv')) as (Hlo' & Hhi' & _).
  destruct (Hcov _ _ (Permutation_in _ (Permutation_sym Hperm) Hlo'))
    as (w & Lw & C).
  destruct (Hcov _ _ (Permutation_in _ (Permutation_sym Hperm) Hhi'))
    as (w' & Lw' & D).
  rewrite Ls in Lw, Lw'. injection Lw as <-. injection Lw' as <-.
  destruct (C Hno) as (C1 & _). destruct (D Hno) as (_ & D2).
  simpl in *.
  exists {| date := date s; t_min := v_min v'; t_max := v_max v' |}.
  split; [|split; [reflexivity|split]].
  - unfold daily_items. apply in_map_iff.
    exists (date s, v'). split; [reflexivity|]. now apply lookup_In.
  - simpl. now apply temp_le_antisym.
  - simpl. now apply temp_le_antisym.
Qed.

Lemma daily_loop_app (l1 l2 : list json) :
  forall daily,
    daily_loop daily (l1 ++ l2) =
    exc_bind (daily_loop daily l1) (fun d' => daily_loop d' l2).
Proof.
  induction l1 as [|x l1 IH]; intro daily; simpl; [reflexivity|].
  destruct (daily_step daily x); simpl; [apply IH | reflexivity].
Qed.

(** The loop never raises on entries whose [dt_txt] holds a date and whose
    temperature is a number. *)
Lemma daily_loop_total (raw : list json) :
  Forall WeatherSample raw ->
  forall daily,
    (forall k v, In (k, v) daily ->
       is_number (v_min v) = true /\ is_number (v_max v) = true) ->
    exists out, daily_loop daily raw = Ok out.
Proof.
  induction 1 as [|item rest Hs _ IH]; intros daily Hnum; simpl; [eauto|].
  destruct (sample_fields item Hs) as (d & t & Hd & Ht & Hn).
  unfold daily_step. rewrite Hd, Ht. simpl.
  destruct (lookup d daily) as [v|] eqn:L.
  - destruct (Hnum d v (lookup_In _ _ _ L)) as (Nlo & Nhi).
    destruct (py_min_pick (v_min v) t Nlo Hn) as (lo & -> & Plo).
    destruct (py_max_pick (v_max v) t Nhi Hn) as (hi & -> & Phi).
    simpl. apply IH. intros k w Hin. apply assign_In in Hin.
    destruct Hin as [Hin|[= -> ->]]; [now apply (Hnum k)|]. simpl.
    split; [destruct Plo as [->| ->] | destruct Phi as [->| ->]]; assumption.
  - apply IH. intros k w Hin. apply assign_In in Hin.
    destruct Hin as [Hin|[= -> ->]]; [now apply (Hnum k)|]. simpl. auto.
Qed.

(** X4: one entry the loop cannot read spoils the whole forecast: when the
    entries before it are weather samples and its date or its temperature
    raises, the aggregation raises that exception and returns no summary,
    whatever follows. *)
Theorem daily_list_malformed_entry (good rest : list json) (bad : json)
    (e : exn) :
  Forall WeatherSample good ->
  (item_date bad = Raise e \/
   (exists d, item_date bad = Ok d) /\ item_temp bad = Raise e) ->
  daily_list (good ++ bad :: rest) = Raise e.
Proof.
  intros Hgood Hbad.
  assert (H0 : forall (k : string) (v : MinMax), In (k, v) [] ->
                 is_number (v_min v) = true /\ is_number (v_max v) = true)
    by (intros k v []).
  destruct (daily_loop_total good Hgood [] H0) as (daily & Hloop).
  unfold daily_list. rewrite daily_loop_app, Hloop. simpl.
  unfold daily_step.
  destruct Hbad as [-> | [(d & ->) ->]]; reflexivity.
Qed.

Lemma daily_list_malformed_entry_witness :
  Forall WeatherSample forecast_example /\
  daily_list (forecast_example ++ undated :: forecast_example) =
    Raise (KeyError "dt_txt").
Proof.
  split; [exact forecast_example_samples|].
  apply (daily_list_malformed_entry forecast_example forecast_example undated).
  - exact forecast_example_samples.
  - left. reflexivity.
Defined.

Lemma no_nan_on_example (d : string) : no_nan_on d forecast_readings.
Proof.
  intros t [[= _ <-]|[[= _ <-]|[[= _ <-]|[]]]]; reflexivity.
Qed.

Lemma daily_bounds_extremal_witness :
  Forall2 sample_of forecast_example_timed forecast_readings /\
  temp_le (JInt 10) (JInt 15) /\ temp_le (JInt 15) (JInt 15).
Proof.
  split; [exact (proj2 forecast_example_readings)|].
  apply (daily_bounds_extremal forecast_example_timed forecast_readings _
           (proj2 forecast_example_readings) eq_refl
           {| date := "01-01"; t_min := JInt 10; t_max := JInt 15 |}
           (JInt 15)).
  - left. reflexivity.
  - right. left. reflexivity.
  - apply no_nan_on_example.
Defined.

Lemma daily_constant_day_witness :
  Forall2 sample_of forecast_example_timed forecast_readings /\
  t_min {| date := "01-02"; t_min := JInt 5; t_max := JInt 5 |} = JInt 5 /\
  t_max {| date := "01-02"; t_min := JInt 5; t_max := JInt 5 |} = JInt 5 /\
  (is_nan (JInt 5) = false ->
   py_eq (t_min {| date := "01-02"; t_min := JInt 5; t_max := JInt 5 |})
         (t_max {| date := "01-02"; t_min := JInt 5; t_max := JInt 5 |}) = true).
Proof.
  split; [exact (proj2 forecast_example_readings)|].
  apply (daily_constant_day forecast_example_timed forecast_readings _
           {| date := "01-02"; t_min := JInt 5; t_max := JInt 5 |} (JInt 5)
           (proj2 forecast_example_readings) eq_refl).
  - right. left. reflexivity.
  - intros t' Hin. simpl in Hin.
    destruct Hin as [H|[H|[H|[]]]]; try discriminate H.
    now injection H.
Defined.

Lemma daily_bounds_order_independent_witness :
  Permutation forecast_readings (rev forecast_readings) /\
  exists s', In s' [ {| date := "01-02"; t_min := JInt 5; t_max := JInt 5 |};
                     {| date := "01-01"; t_min := JInt 10; t_max := JInt 15 |} ]
             /\ date s' = "01-01" /\
             temp_eq (t_min s') (JInt 10) /\ temp_eq (t_max s') (JInt 15).
Proof.
  split; [apply Permutation_rev|].
  assert (Hrev : Forall2 sample_of (rev forecast_example_timed)
                   (rev forecast_readings)).
  { destruct day_0101 as (N1 & W1). destruct day_0102 as (N2 & W2).
    simpl.
    constructor;
      [apply (proj2 (sample_of_sample "01-02" (JInt 5) N2 W2 eq_refl))|].
    constructor;
      [apply (proj2 (sample_of_sample "01-01" (JInt 15) N1 W1 eq_refl))|].
    constructor;
      [apply (proj2 (sample_of_sample "01-01" (JInt 10) N1 W1 eq_refl))|].
    constructor. }
  apply (daily_bounds_order_independent forecast_example_timed
           (rev forecast_example_timed) forecast_readings
           (rev forecast_readings) _ _
           (proj2 forecast_example_readings) Hrev (Permutation_rev _)
           eq_refl eq_refl
           {| date := "01-01"; t_min := JInt 10; t_max := JInt 15 |}).
  - left. reflexivity.
  - apply no_nan_on_example.
Defined.

(* ================================================================== *)
(** ** What one request does to the state *)

Section RequestFacts.

Variable E : Env.

#[local] Arguments query : simpl never.
#[local] Arguments weather_url : simpl never.
#[local] Arguments forecast_url : simpl never.

Lemma keeps_sent_ret {A} (a : A) : keeps_sent (ret a).
Proof. intro s. reflexivity. Qed.

Lemma keeps_sent_lift {A} (m : exc A) : keeps_sent (lift m).
Proof. intro s. reflexivity. Qed.

Lemma keeps_sent_insert c t d stamp : keeps_sent (execute_insert c t d stamp).
Proof.
  intro s. unfold execute_insert.
  now destruct (insert_weather c t d stamp (db s)).
Qed.

Lemma keeps_sent_bind {A B} (m : M A) (k : A -> M B) :
  keeps_sent m -> (forall a, keeps_sent (k a)) -> keeps_sent (bind m k).
Proof.
  intros Hm Hk s. unfold bind. specialize (Hm s).
  destruct (m s) as [[a|e] s']; simpl in *; [|assumption].
  now rewrite Hk.
Qed.

Lemma keeps_sent_try {A} (body : M A) (h : exn -> M A) :
  keeps_sent body -> (forall e, keeps_sent (h e)) ->
  keeps_sent (try_except body h).
Proof.
  intros Hb Hh s. unfold try_except. specialize (Hb s).
  destruct (body s) as [[a|e] s']; simpl in *; [assumption|].
  now rewrite Hh.
Qed.

Lemma keeps_sent_if {A} (b : bool) (m1 m2 : M A) :
  keeps_sent m1 -> keeps_sent m2 -> keeps_sent (if b then m1 else m2).
Proof. now destruct b. Qed.

Ltac silent :=
  unfold render;
  repeat first
    [ apply keeps_sent_ret | apply keeps_sent_lift | apply keeps_sent_insert
    | apply keeps_sent_if
    | apply keeps_sent_try; [|intro]
    | apply keeps_sent_bind; [|intro] ].

(** A view of the shape [try: resp = requests.get(...); ...  except: ...]
    whose rest makes no call makes one call. *)
Lemma fetch_once {A} (u c : string) (k : Response -> M A) (h : exn -> M A) :
  u = weather_url \/ u = forecast_url ->
  (forall r, keeps_sent (k r)) -> (forall e, keeps_sent (h e)) ->
  forall s,
    sent (snd (try_except (bind (http_get E u (query E c) 8) k) h s)) =
    sent s ++ [{| url := u; params := query E c; timeout := 8 |}].
Proof.
  intros Hu Hk Hh s. unfold try_except, bind, http_get.
  destruct (requests_get E u (query E c) 8) as [r|e].
  - match goal with |- context [k r ?s1] =>
      pose proof (Hk r s1) as H1; destruct (k r s1) as [[a|e] s2] end;
      simpl in *; [assumption|].
    now rewrite Hh.
  - now rewrite Hh.
Qed.

Lemma serve_state (r : Request) (s : State) :
  snd (serve E r s) = snd (view_of E r s).
Proof.
  unfold serve, flask. destruct (view_of E r s) as [[a|e] s']; [reflexivity|].
  now destruct e.
Qed.

Lemma replied_state (v : M Reply) (s : State) :
  snd (bind v (fun x => ret (Replied x)) s) = snd (v s).
Proof. unfold bind, ret. now destruct (v s) as [[a|e] s']. Qed.

Lemma index_keeps_state (method : string) (form : list (string * string))
    (s : State) :
  snd (index E method form s) = s.
Proof.
  unfold index, render, bind, lift, ret.
  destruct (String.eqb method "POST"); [destruct (negb _)|];
    try reflexivity; now destruct (render_template E "main.html" []).
Qed.

Lemma one_call (u c : string) (s s' : State) :
  u = weather_url \/ u = forecast_url ->
  sent s' = sent s ++ [{| url := u; params := query E c; timeout := 8 |}] ->
  at_most_one_call E s s'.
Proof.
  intros Hu H. right. eexists. split; [|exact H].
  repeat split; simpl; eauto.
Qed.

Lemma api_weather_calls (payload : option json) (s : State) :
  at_most_one_call E s (snd (api_weather E payload s)).
Proof.
  unfold api_weather, get_json.
  destruct payload as [data|]; [|now left].
  unfold bind at 1. unfold ret at 1.
  unfold bind at 1. unfold lift at 1.
  destruct (py_get data "city" (JStr "")) as [c|]; [|now left].
  unfold bind at 1. unfold lift at 1.
  destruct (py_strip c) as [city|]; [|now left].
  destruct (String.eqb city ""); [now left|].
  apply (one_call weather_url city); [now left|].
  apply fetch_once; [now left| |intro; silent].
  intro r. destruct (negb _); silent.
Qed.

Lemma view_calls (r : Request) (s : State) :
  at_most_one_call E s (snd (view_of E r s)).
Proof.
  destruct r as [m f|p|c|c|c|c|c|]; unfold view_of.
  - rewrite index_keeps_state. now left.
  - rewrite replied_state. apply api_weather_calls.
  - rewrite replied_state. apply (one_call weather_url c); [now left|].
    apply fetch_once; [now left| |intro; silent].
    intro r. destruct (negb _); silent.
  - rewrite replied_state. apply (one_call weather_url c); [now left|].
    apply fetch_once; [now left| |intro; silent].
    intro r. destruct (negb _); silent.
  - rewrite replied_state. apply (one_call forecast_url c); [now right|].
    apply fetch_once; [now right| |intro; silent].
    intro r. destruct (negb _); silent.
  - rewrite replied_state. apply (one_call forecast_url c); [now right|].
    apply fetch_once; [now right| |intro; silent].
    intro r. destruct (negb _); silent.
  - rewrite replied_state. apply (one_call forecast_url c); [now right|].
    apply fetch_once; [now right| |intro; silent].
    intro r. destruct (negb _); silent.
  - rewrite replied_state. now left.
Qed.

(** X5: a request makes at most one provider call, and a call goes to one
    of the two provider urls with the query of a city, the key, metric
    units and a timeout of 8 seconds; the form page and the history make
    none. *)
Theorem request_calls_at_most_once (r : Request) (s : State) :
  at_most_one_call E s (snd (serve E r s)) /\
  (forall m f, sent (snd (serve E (Index m f) s)) = sent s) /\
  sent (snd (serve E ApiHistory s)) = sent s.
Proof.
  split; [|split].
  - rewrite serve_state. apply view_calls.
  - intros m f. rewrite serve_state. unfold view_of.
    now rewrite index_keeps_state.
  - rewrite serve_state. unfold view_of. now rewrite replied_state.
Qed.

(* ------------------------------------------------------------------ *)
(** *** Rows *)

Lemma next_rowid_fresh (d : Database) :
  Forall (fun r => (id r < next_rowid d)%Z) (weather d).
Proof.
  eapply Forall_impl; [|apply max_rowid_bound].
  simpl. unfold next_rowid. intros; lia.
Qed.

Lemma with_row_primary_key (d : Database) c t de stamp :
  primary_key d -> primary_key (with_row d c t de stamp).
Proof.
  unfold primary_key, with_row. simpl. intro H. rewrite map_app. simpl.
  apply NoDup_app; [assumption | repeat constructor; now intros [] |].
  intros a Ha [<-|[]]. apply in_map_iff in Ha. destruct Ha as (r & Hr & Hin).
  pose proof (next_rowid_fresh d) as F. rewrite Forall_forall in F.
  specialize (F r Hin). lia.
Qed.

Lemma with_row_append_only (d : Database) c t de stamp :
  append_only d -> append_only (with_row d c t de stamp).
Proof.
  intros [Hs Hb]. split; simpl.
  - apply sorted_snoc; [assumption | apply next_rowid_fresh].
  - apply Forall_app. split.
    + eapply Forall_impl; [|apply next_rowid_fresh]. simpl. intros; lia.
    + repeat constructor. simpl. lia.
Qed.

Lemma with_row_neq (d : Database) c t de stamp : with_row d c t de stamp <> d.
Proof.
  intro H. apply (f_equal (fun x => List.length (weather x))) in H.
  simpl in H. rewrite length_app in H. simpl in H. lia.
Qed.

Lemma at_most_one_row_trans_l (d0 d1 d2 : Database) :
  d1 = d0 -> at_most_one_row d1 d2 -> at_most_one_row d0 d2.
Proof. now intros ->. Qed.

Lemma writes_once_of_keeps {A} (m : M A) : keeps_db m -> writes_once m.
Proof. intros H s. left. apply H. Qed.

Lemma writes_once_insert c t d stamp :
  writes_once (execute_insert c t d stamp).
Proof.
  intro s. unfold execute_insert.
  destruct (insert_weather c t d stamp (db s)) as [db'|e] eqn:I; simpl.
  - destruct (insert_weather_append_only _ _ _ _ _ _ I)
      as (t' & d' & _ & _ & -> & _).
    right. now exists c, t', d', stamp.
  - now left.
Qed.

Lemma writes_once_bind_l {A B} (m : M A) (k : A -> M B) :
  keeps_db m -> (forall a, writes_once (k a)) -> writes_once (bind m k).
Proof.
  intros Hm Hk s. unfold bind. specialize (Hm s).
  destruct (m s) as [[a|e] s']; simpl in *.
  - rewrite <- Hm. apply Hk.
  - now left.
Qed.

Lemma writes_once_bind_r {A B} (m : M A) (k : A -> M B) :
  writes_once m -> (forall a, keeps_db (k a)) -> writes_once (bind m k).
Proof.
  intros Hm Hk s. unfold bind. specialize (Hm s).
  destruct (m s) as [[a|e] s']; simpl in *; [|assumption].
  now rewrite Hk.
Qed.

Lemma writes_once_try {A} (body : M A) (h : exn -> M A) :
  writes_once body -> (forall e, keeps_db (h e)) ->
  writes_once (try_except body h).
Proof.
  intros Hb Hh s. unfold try_except. specialize (Hb s).
  destruct (body s) as [[a|e] s']; simpl in *; [assumption|].
  now rewrite Hh.
Qed.

Lemma writes_once_if {A} (b : bool) (m1 m2 : M A) :
  writes_once m1 -> writes_once m2 -> writes_once (if b then m1 else m2).
Proof. now destruct b. Qed.

Lemma keeps_db_get_json (payload : option json) : keeps_db (get_json payload).
Proof. destruct payload; intro s; reflexivity. Qed.

Ltac quiet :=
  unfold render;
  repeat first
    [ apply keeps_db_ret | apply keeps_db_lift | apply keeps_db_http_get
    | apply keeps_db_get_json
    | apply keeps_db_if
    | apply keeps_db_try; [|intro]
    | apply keeps_db_bind; [|intro] ].

Ltac one_write :=
  repeat first
    [ apply writes_once_if
    | apply writes_once_try; [|intro; solve [quiet]]
    | apply writes_once_bind_r; [apply writes_once_insert | intro; solve [quiet]]
    | apply writes_once_bind_l; [solve [quiet] | intro]
    | apply writes_once_bind_r; [|intro; solve [quiet]]
    | apply writes_once_of_keeps; solve [quiet] ].

Lemma view_writes_once (r : Request) : writes_once (view_of E r).
Proof.
  destruct r as [m f|p|c|c|c|c|c|]; unfold view_of.
  - intro s. left. now rewrite index_keeps_state.
  - unfold api_weather. one_write.
  - unfold show_weather_page. one_write.
  - apply writes_once_of_keeps. apply keeps_db_bind; [|intro; quiet].
    apply (read_only_views E c).
  - apply writes_once_of_keeps. apply keeps_db_bind; [|intro; quiet].
    apply (read_only_views E c).
  - apply writes_once_of_keeps. apply keeps_db_bind; [|intro; quiet].
    apply (read_only_views E c).
  - apply writes_once_of_keeps. apply keeps_db_bind; [|intro; quiet].
    apply (read_only_views E c).
  - apply writes_once_of_keeps. apply keeps_db_bind; [|intro; quiet].
    apply (read_only_views E "").
Qed.

Lemma serve_at_most_one_row (r : Request) (s : State) :
  at_most_one_row (db s) (db (snd (serve E r s))).
Proof. rewrite serve_state. apply view_writes_once. Qed.

(** X6: a request leaves the table as it was or appends one row to it: the
    rows already there are neither changed nor removed, the new row gets an
    id above all of theirs, and the primary key and the insertion order of
    the table are kept. *)
Theorem request_appends_at_most_one_row (r : Request) (s : State) :
  at_most_one_row (db s) (db (snd (serve E r s))) /\
  (exists new, weather (db (snd (serve E r s))) = weather (db s) ++ new /\
               (List.length new <= 1)%nat /\
               forall old n, In old (weather (db s)) -> In n new ->
                             (id old < id n)%Z) /\
  (primary_key (db s) -> primary_key (db (snd (serve E r s)))) /\
  (append_only (db s) -> append_only (db (snd (serve E r s)))).
Proof.
  pose proof (serve_at_most_one_row r s) as H.
  split; [exact H|].
  destruct H as [-> | (c & t & d & stamp & ->)].
  - split; [|tauto]. exists []. rewrite app_nil_r.
    repeat split; simpl; [lia | contradiction].
  - split; [|split].
    + eexists. split; [reflexivity|]. split; [simpl; lia|].
      intros old n Hold [<-|[]]. simpl.
      pose proof (next_rowid_fresh (db s)) as F. rewrite Forall_forall in F.
      now apply F.
    + apply with_row_primary_key.
    + apply with_row_append_only.
Qed.

(* ------------------------------------------------------------------ *)
(** *** The outcomes of [POST /api/weather] *)

(** Either the view fails with 400, 404 or 500 and writes nothing, or it
    replies 200 with the record it has just stored. *)
Lemma api_weather_outcome (payload : option json) (s : State) :
  (db (snd (dispatch (api_weather E payload) s)) = db s /\
   (snd (fst (dispatch (api_weather E payload) s)) = 400%Z \/
    snd (fst (dispatch (api_weather E payload) s)) = 404%Z \/
    snd (fst (dispatch (api_weather E payload) s)) = 500%Z)) \/
  (exists c temp desc t d,
     fst (dispatch (api_weather E payload) s) =
       (Jsonify (JObj [("city", JStr c); ("temperature", temp);
                       ("description", desc);
                       ("dt", JStr (strftime_now E stamp_format))]), 200%Z) /\
     adapt temp = Ok t /\ adapt desc = Ok d /\
     db (snd (dispatch (api_weather E payload) s)) =
       with_row (db s) c t d (strftime_now E stamp_format)).
Proof.
  unfold dispatch, api_weather, get_json, try_except, bind, lift, ret,
    http_get.
  destruct payload as [data|]; simpl; [|left; auto].
  destruct (py_get data "city" (JStr "")) as [c|[]]; simpl;
    try (left; split; [reflexivity | auto]).
  destruct (py_strip c) as [city|[]]; simpl;
    try (left; split; [reflexivity | auto]).
  destruct (String.eqb city ""); simpl; [left; auto|].
  destruct (requests_get E weather_url (query E city) 8) as [resp|];
    simpl; [|left; auto].
  destruct (negb (status_code resp =? 200)%Z); simpl; [left; auto|].
  destruct (resp_json resp) as [js|]; simpl; [|left; auto].
  destruct (py_get js "main" (JObj [])) as [main|]; simpl; [|left; auto].
  destruct (py_get main "temp" JNull) as [temp|]; simpl; [|left; auto].
  destruct (py_get js "weather" JNull) as [w|]; simpl; [|left; auto].
  destruct (py_getitem0 (py_or w (JArr [JObj []]))) as [w0|]; simpl;
    [|left; auto].
  destruct (py_get w0 "description" (JStr "")) as [desc|]; simpl;
    [|left; auto].
  unfold execute_insert. simpl.
  destruct (insert_weather city temp desc (strftime_now E stamp_format) (db s))
    as [db'|] eqn:I; simpl; [|left; auto].
  destruct (insert_weather_append_only _ _ _ _ _ _ I)
    as (t & d & Ht & Hd & -> & _).
  right. exists city, temp, desc, t, d. auto.
Qed.

(** X7: [POST /api/weather] replies 200 exactly when it has appended a
    row; with every other status (400, 404, 500) the table is as before. *)
Theorem api_weather_200_iff_row (payload : option json) (s : State) :
  (snd (fst (dispatch (api_weather E payload) s)) = 200%Z <->
   db (snd (dispatch (api_weather E payload) s)) <> db s) /\
  (snd (fst (dispatch (api_weather E payload) s)) = 200%Z \/
   snd (fst (dispatch (api_weather E payload) s)) = 400%Z \/
   snd (fst (dispatch (api_weather E payload) s)) = 404%Z \/
   snd (fst (dispatch (api_weather E payload) s)) = 500%Z).
Proof.
  destruct (api_weather_outcome payload s)
    as [[Hdb Hst] | (c & temp & desc & t & d & Hr & _ & _ & Hdb)].
  - split; [|tauto]. split.
    + intro H. rewrite H in Hst. destruct Hst as [?|[?|?]]; discriminate.
    + intro H. contradiction.
  - rewrite Hr, Hdb. simpl. split; [|now left]. split; [|reflexivity].
    intros _. apply with_row_neq.
Qed.

Lemma Qeq_bool_refl (q : Q) : Qeq_bool q q = true.
Proof. apply Qeq_bool_iff. reflexivity. Qed.





(* ------------------------------------------------------------------ *)
(** *** The fetching views, path by path *)

Ltac step_view :=
  unfold dispatch, api_weather, show_weather_page, today_weather,
    hourly_weather, weekly_weather, daily_weather, render, rendered,
    get_json, try_except, bind, lift, ret, http_get, logged;
  simpl.

(** X9: on a complete 200 answer [GET /weather/<city>] appends the row
    first and renders [result.html] after: the reply is the page, or a 500
    with the message of the template engine when rendering fails, and the
    row is in the table in both cases. *)
Theorem show_weather_page_stores_then_renders (s : State) (city : string)
    (resp : Response) (jk m w : list (string * json)) (ws : list json)
    (temp desc : json) (t d : sqlval) :
  requests_get E weather_url (query E city) 8 = Ok resp ->
  status_code resp = 200%Z ->
  resp_json resp = Ok (JObj jk) ->
  lookup "main" jk = Some (JObj m) -> lookup "temp" m = Some temp ->
  lookup "weather" jk = Some (JArr (JObj w :: ws)) ->
  lookup "description" w = Some desc ->
  adapt temp = Ok t -> adapt desc = Ok d ->
  dispatch (show_weather_page E city) s =
    (rendered E "result.html"
       [("city", JStr city); ("temp", temp); ("desc", desc);
        ("dt", JStr (strftime_now E stamp_format))],
     {| db := with_row (db s) city t d (strftime_now E stamp_format);
        sent := sent (logged E weather_url city s) |}) /\
  (forall e,
      render_template E "result.html"
        [("city", JStr city); ("temp", temp); ("desc", desc);
         ("dt", JStr (strftime_now E stamp_format))] = Raise e ->
      fst (dispatch (show_weather_page E city) s) =
        (Text ("Error: " ++ str_exn E e), 500%Z) /\
      db (snd (dispatch (show_weather_page E city) s)) <> db s).
Proof.
  intros Hget Hst Hjs Hm Ht Hw Hd Ha1 Ha2.
  assert (Hrun : dispatch (show_weather_page E city) s =
    (rendered E "result.html"
       [("city", JStr city); ("temp", temp); ("desc", desc);
        ("dt", JStr (strftime_now E stamp_format))],
     {| db := with_row (db s) city t d (strftime_now E stamp_format);
        sent := sent (logged E weather_url city s) |})).
  { step_view. rewrite Hget, Hst. simpl. rewrite Hjs. simpl.
    rewrite Hm. simpl. rewrite Ht. simpl. rewrite Hw. simpl. rewrite Hd.
    simpl. unfold execute_insert, insert_weather. simpl.
    rewrite Ha1, Ha2. simpl.
    now destruct (render_template E "result.html" _). }
  split; [exact Hrun|].
  intros e He. rewrite Hrun. unfold rendered. rewrite He. simpl.
  split; [reflexivity | apply with_row_neq].
Qed.

(** X10: [GET /weather/<city>] needs its fields: a 200 answer without
    [main], without [main.temp], or with an empty [weather] list is
    answered 500 with the exception's message, and no row is written. *)
Theorem show_weather_page_requires_fields (s : State) (city : string)
    (resp : Response) (jk : list (string * json)) :
  requests_get E weather_url (query E city) 8 = Ok resp ->
  status_code resp = 200%Z ->
  resp_json resp = Ok (JObj jk) ->
  (lookup "main" jk = None ->
   dispatch (show_weather_page E city) s =
     ((Text ("Error: " ++ str_exn E (KeyError "main")), 500%Z),
      logged E weather_url city s)) /\
  (forall m, lookup "main" jk = Some (JObj m) -> lookup "temp" m = None ->
   dispatch (show_weather_page E city) s =
     ((Text ("Error: " ++ str_exn E (KeyError "temp")), 500%Z),
      logged E weather_url city s)) /\
  (forall m temp, lookup "main" jk = Some (JObj m) ->
   lookup "temp" m = Some temp ->
   (lookup "weather" jk = None ->
    dispatch (show_weather_page E city) s =
      ((Text ("Error: " ++ str_exn E (KeyError "weather")), 500%Z),
       logged E weather_url city s)) /\
   (lookup "weather" jk = Some (JArr []) ->
    dispatch (show_weather_page E city) s =
      ((Text ("Error: " ++ str_exn E IndexError), 500%Z),
       logged E weather_url city s))).
Proof.
  intros Hget Hst Hjs. split; [|split].
  - intro Hm. step_view. rewrite Hget, Hst. simpl. rewrite Hjs. simpl.
    now rewrite Hm.
  - intros m Hm Ht. step_view. rewrite Hget, Hst. simpl. rewrite Hjs. simpl.
    rewrite Hm. simpl. now rewrite Ht.
  - intros m temp Hm Ht. split; intro Hw; step_view; rewrite Hget, Hst; simpl;
      rewrite Hjs; simpl; rewrite Hm; simpl; rewrite Ht; simpl;
      now rewrite Hw.
Qed.

(** X11: when [requests.get] raises (no connection, timeout), every
    fetching view answers 500 with the exception's message, as a JSON error
    for [POST /api/weather] and as text for the pages; the call is logged
    and no row is written. *)
Theorem provider_unreachable_500 (s : State) (city : string) (e : exn) :
  (requests_get E weather_url (query E city) 8 = Raise e ->
   (forall kv c,
       lookup "city" kv = Some (JStr c) -> str_strip c = city -> city <> "" ->
       dispatch (api_weather E (Some (JObj kv))) s =
         ((Jsonify (error_json (str_exn E e)), 500%Z),
          logged E weather_url city s)) /\
   dispatch (show_weather_page E city) s =
     ((Text ("Error: " ++ str_exn E e), 500%Z), logged E weather_url city s) /\
   dispatch (today_weather E city) s =
     ((Text ("Error: " ++ str_exn E e), 500%Z), logged E weather_url city s)) /\
  (requests_get E forecast_url (query E city) 8 = Raise e ->
   dispatch (hourly_weather E city) s =
     ((Text ("Error: " ++ str_exn E e), 500%Z), logged E forecast_url city s) /\
   dispatch (daily_weather E city) s =
     ((Text ("Error: " ++ str_exn E e), 500%Z), logged E forecast_url city s)).
Proof.
  split; intro Hget.
  - split; [|split].
    + intros kv c Hc Hs Hne. step_view. rewrite Hc. simpl. rewrite Hs.
      apply String.eqb_neq in Hne. rewrite Hne, Hget. reflexivity.
    + step_view. now rewrite Hget.
    + step_view. now rewrite Hget.
  - split; step_view; now rewrite Hget.
Qed.

(** X12: when the provider answers 200 with a body that is not JSON, every
    fetching view answers 500 with the decoder's message, and no row is
    written. *)
Theorem undecodable_answer_500 (s : State) (city : string) (resp : Response)
    (e : exn) :
  status_code resp = 200%Z -> resp_json resp = Raise e ->
  (requests_get E weather_url (query E city) 8 = Ok resp ->
   (forall kv c,
       lookup "city" kv = Some (JStr c) -> str_strip c = city -> city <> "" ->
       dispatch (api_weather E (Some (JObj kv))) s =
         ((Jsonify (error_json (str_exn E e)), 500%Z),
          logged E weather_url city s)) /\
   dispatch (show_weather_page E city) s =
     ((Text ("Error: " ++ str_exn E e), 500%Z), logged E weather_url city s) /\
   dispatch (today_weather E city) s =
     ((Text ("Error: " ++ str_exn E e), 500%Z), logged E weather_url city s)) /\
  (requests_get E forecast_url (query E city) 8 = Ok resp ->
   dispatch (hourly_weather E city) s =
     ((Text ("Error: " ++ str_exn E e), 500%Z), logged E forecast_url city s) /\
   dispatch (daily_weather E city) s =
     ((Text ("Error: " ++ str_exn E e), 500%Z), logged E forecast_url city s)).
Proof.
  intros Hst Hjs. split; intro Hget.
  - split; [|split].
    + intros kv c Hc Hs Hne. step_view. rewrite Hc. simpl. rewrite Hs.
      apply String.eqb_neq in Hne. rewrite Hne, Hget, Hst. simpl.
      now rewrite Hjs.
    + step_view. rewrite Hget, Hst. simpl. now rewrite Hjs.
    + step_view. rewrite Hget, Hst. simpl. now rewrite Hjs.
  - split; step_view; rewrite Hget, Hst; simpl; now rewrite Hjs.
Qed.

(** X13: a body of [POST /api/weather] that the view cannot read is
    refused before any provider call or write, outside the view's own
    [try]: a body that is not JSON gets Flask's 400, a JSON value that is
    not an object, or a [city] that is not a string, Flask's 500. *)
Theorem api_weather_malformed_body (s : State) :
  dispatch (api_weather E None) s = ((ErrorPage BadRequest, 400%Z), s) /\
  (forall data, (forall kv, data <> JObj kv) ->
     dispatch (api_weather E (Some data)) s =
       ((ErrorPage AttributeError, 500%Z), s)) /\
  (forall kv v, lookup "city" kv = Some v -> (forall c, v <> JStr c) ->
     dispatch (api_weather E (Some (JObj kv))) s =
       ((ErrorPage AttributeError, 500%Z), s)).
Proof.
  split; [reflexivity|]. split.
  - intros data H. step_view.
    destruct data; try reflexivity. now destruct (H kv).
  - intros kv v Hv H. step_view. rewrite Hv. simpl.
    destruct v; try reflexivity. now destruct (H s0).
Qed.

(** X14: the form page redirects exactly when the request is a POST whose
    [city] is not blank, and then to the weather page of the stripped
    city; in every case it calls no provider and writes nothing. *)
Theorem index_redirects_on_city (method : string)
    (form : list (string * string)) (s : State) :
  snd (serve E (Index method form) s) = s /\
  ((exists ep vs, fst (serve E (Index method form) s) = Redirected ep vs) <->
   method = "POST" /\ form_city form <> "") /\
  (method = "POST" -> form_city form <> "" ->
   fst (serve E (Index method form) s) =
     Redirected "show_weather_page" [("city", form_city form)]) /\
  (forall html, render_template E "main.html" [] = Ok html ->
   method <> "POST" \/ form_city form = "" ->
   fst (serve E (Index method form) s) = Replied (Text html, 200%Z)).
Proof.
  assert (Hpage : forall st,
    exists r, fst (flask (bind (render E "main.html" [])
                               (fun r => ret (Replied r)) st)) = Replied r).
  { intro st. unfold flask, render, bind, lift, ret.
    destruct (render_template E "main.html" []) as [h|[]]; simpl; eauto. }
  split; [rewrite serve_state; apply index_keeps_state|].
  unfold serve, view_of, index. fold (form_city form).
  destruct (String.eqb method "POST") eqn:Em.
  - apply String.eqb_eq in Em.
    destruct (String.eqb (form_city form) "") eqn:Ec; simpl.
    + apply String.eqb_eq in Ec. split; [|split].
      * split; [|tauto]. intros (ep & vs & H).
        destruct (Hpage s) as (r & Hr). rewrite Hr in H. discriminate.
      * tauto.
      * intros html Hh _. unfold flask, render, bind, lift, ret.
        now rewrite Hh.
    + apply String.eqb_neq in Ec. split; [|split].
      * split; [tauto|]. intros _. unfold ret. simpl. eauto.
      * reflexivity.
      * intros html _ [H|H]; contradiction.
  - apply String.eqb_neq in Em. split; [|split].
    + split; [|tauto]. intros (ep & vs & H).
      destruct (Hpage s) as (r & Hr). rewrite Hr in H. discriminate.
    + tauto.
    + intros html Hh _. unfold flask, render, bind, lift, ret.
      now rewrite Hh.
Qed.

Lemma main_field_default (k : string) (jk : list (string * json)) :
  main_usable jk = true ->
  exists main, py_get (JObj jk) "main" (JObj []) = Ok main /\
               py_get main k JNull = Ok (main_field_or_null k jk).
Proof.
  unfold main_usable, main_field_or_null. simpl.
  destruct (lookup "main" jk) as [[]|]; try discriminate; intros _.
  - eexists; split; [reflexivity|]. simpl. now destruct (lookup k kv).
  - eexists; split; reflexivity.
Qed.

Lemma icon_default (jk : list (string * json)) :
  weather_usable jk = true ->
  exists w w0,
    py_get (JObj jk) "weather" JNull = Ok w /\
    py_getitem0 (py_or w (JArr [JObj []])) = Ok w0 /\
    py_get w0 "description" (JStr "☀️") = Ok (icon_or_sun jk).
Proof.
  unfold weather_usable, icon_or_sun, py_or. simpl.
  destruct (lookup "weather" jk) as [w|].
  - intro H. exists w. apply orb_true_iff in H. destruct H as [H|H].
    + apply negb_true_iff in H. rewrite H.
      exists (JObj []). repeat split.
      destruct w as [| | | | |[|[] ?]| |]; try reflexivity; discriminate.
    + destruct w as [| | | | |[|[] ?]| |]; try discriminate.
      simpl. eexists. repeat split. simpl.
      now destruct (lookup "description" kv).
  - intros _. exists JNull, (JObj []). repeat split.
Qed.

(** X15: the today view tolerates missing fields: on a 200 answer whose
    [main] is absent or an object and whose [weather] is absent, falsy or
    a list that starts with an object, it renders [today.html] with
    [main.temp_max] and [main.temp_min], [null] where they are missing, and
    with the description, or the sun where there is none; it writes
    nothing. *)
Theorem today_weather_defaults (s : State) (city : string) (resp : Response)
    (jk : list (string * json)) :
  requests_get E weather_url (query E city) 8 = Ok resp ->
  status_code resp = 200%Z ->
  resp_json resp = Ok (JObj jk) ->
  main_usable jk = true -> weather_usable jk = true ->
  dispatch (today_weather E city) s =
    (rendered E "today.html"
       [("city", JStr city);
        ("today_high", main_field_or_null "temp_max" jk);
        ("today_low", main_field_or_null "temp_min" jk);
        ("icon", icon_or_sun jk)],
     logged E weather_url city s) /\
  (lookup "main" jk = None ->
   main_field_or_null "temp_max" jk = JNull /\
   main_field_or_null "temp_min" jk = JNull) /\
  (lookup "weather" jk = None -> icon_or_sun jk = JStr "☀️").
Proof.
  intros Hget Hst Hjs Hmain Hw.
  destruct (main_field_default "temp_max" jk Hmain) as (m1 & Hm1 & Hhi).
  destruct (main_field_default "temp_min" jk Hmain) as (m2 & Hm2 & Hlo).
  destruct (icon_default jk Hw) as (w & w0 & Hw1 & Hw2 & Hw3).
  rewrite Hm1 in Hm2. injection Hm2 as <-.
  split; [|split].
  - unfold dispatch, today_weather, render, rendered, try_except, bind, lift,
      ret, http_get, logged.
    rewrite Hget, Hst. cbn [Z.eqb Pos.eqb negb].
    rewrite Hjs, Hm1, Hhi, Hlo, Hw1, Hw2, Hw3.
    now destruct (render_template E "today.html" _).
  - intro H. unfold main_field_or_null. now rewrite H.
  - intro H. unfold icon_or_sun. now rewrite H.
Qed.

(** X16: the daily view hands the aggregation to the template: on a 200
    answer it renders [daily.html] with the summaries of the [list] (of no
    entry when the answer has no [list]), in their order; when the
    aggregation raises, it answers 500 with that exception's message. *)
Theorem daily_weather_renders_summaries (s : State) (city : string)
    (resp : Response) (kv : list (string * json)) (raw : list json) :
  requests_get E forecast_url (query E city) 8 = Ok resp ->
  status_code resp = 200%Z ->
  resp_json resp = Ok (JObj kv) ->
  lookup "list" kv = Some (JArr raw) \/ (lookup "list" kv = None /\ raw = []) ->
  dispatch (daily_weather E city) s =
    (match daily_list raw with
     | Ok out => rendered E "daily.html"
                   [("city", JStr city); ("data", JArr (map summary_json out))]
     | Raise e => (Text ("Error: " ++ str_exn E e), 500%Z)
     end,
     logged E forecast_url city s).
Proof.
  intros Hget Hst Hjs Hl.
  unfold dispatch, daily_weather, render, rendered, try_except, bind, lift,
    ret, http_get, logged.
  rewrite Hget, Hst. cbn [Z.eqb Pos.eqb negb]. rewrite Hjs.
  assert (Hraw : exc_bind (py_get (JObj kv) "list" (JArr [])) py_iter = Ok raw).
  { simpl. destruct Hl as [-> | [-> ->]]; reflexivity. }
  destruct (py_get (JObj kv) "list" (JArr [])) as [l|]; [|discriminate].
  simpl in Hraw. rewrite Hraw.
  destruct (daily_list raw) as [out|e]; [|reflexivity].
  now destruct (render_template E "daily.html" _).
Qed.

(* ------------------------------------------------------------------ *)
(** *** The city sent to the provider *)

Lemma rstrip_idem (s : string) : rstrip (rstrip s) = rstrip s.
Proof.
  induction s as [|c r IH]; simpl; [reflexivity|].
  destruct (String.eqb (rstrip r) "" && py_isspace c) eqn:C; simpl.
  - reflexivity.
  - now rewrite IH, C.
Qed.

Lemma lstrip_head (s : string) :
  lstrip s = "" \/
  exists c r, lstrip s = String c r /\ py_isspace c = false.
Proof.
  induction s as [|c r IH]; simpl; [now left|].
  destruct (py_isspace c) eqn:C; [assumption|]. right. eauto.
Qed.

Lemma str_strip_idem (s : string) : str_strip (str_strip s) = str_strip s.
Proof.
  unfold str_strip. destruct (lstrip_head s) as [-> | (c & r & -> & C)].
  - reflexivity.
  - simpl. rewrite C, andb_false_r. simpl. rewrite C. simpl.
    rewrite rstrip_idem. now rewrite C, andb_false_r.
Qed.

Lemma dispatch_state (v : M Reply) (s : State) :
  snd (dispatch v s) = snd (v s).
Proof.
  unfold dispatch. destruct (v s) as [[r|e] s']; [reflexivity|].
  now destruct e.
Qed.

(** X17: [POST /api/weather] queries the provider with the city of the
    body stripped of surrounding white space, never with a blank one:
    the call it logs, if any, carries a city that is not empty and that
    stripping leaves as it is. *)
Theorem api_weather_query_stripped (payload : option json) (s : State) :
  sent (snd (dispatch (api_weather E payload) s)) = sent s \/
  exists kv c,
    payload = Some (JObj kv) /\ lookup "city" kv = Some (JStr c) /\
    str_strip c <> "" /\ str_strip (str_strip c) = str_strip c /\
    sent (snd (dispatch (api_weather E payload) s)) =
      sent s ++ [{| url := weather_url; params := query E (str_strip c);
                    timeout := 8 |}].
Proof.
  rewrite dispatch_state.
  cut (forall s', snd (api_weather E payload s) = s' ->
         sent s' = sent s \/
         exists kv c,
           payload = Some (JObj kv) /\ lookup "city" kv = Some (JStr c) /\
           str_strip c <> "" /\ str_strip (str_strip c) = str_strip c /\
           sent s' =
             sent s ++ [{| url := weather_url; params := query E (str_strip c);
                           timeout := 8 |}]);
    [intro H; now apply H|].
  unfold api_weather, get_json.
  destruct payload as [data|]; [|intros s' <-; now left].
  unfold bind at 1. unfold ret at 1.
  unfold bind at 1. unfold lift at 1.
  destruct (py_get data "city" (JStr "")) as [v|] eqn:G;
    [|intros s' <-; now left].
  unfold bind at 1. unfold lift at 1.
  destruct (py_strip v) as [city|] eqn:P; [|intros s' <-; now left].
  destruct (String.eqb city "") eqn:C; [intros s' <-; now left|].
  apply String.eqb_neq in C.
  destruct v as [| | | |c| | |]; try discriminate.
  simpl in P. injection P as <-.
  destruct data as [| | | | | |kv|]; try discriminate. simpl in G.
  destruct (lookup "city" kv) as [v|] eqn:L.
  - injection G as ->. intros s' <-. right. exists kv, c.
    repeat split; auto using str_strip_idem.
    apply fetch_once; [now left| |intro; silent].
    intro r. destruct (negb _); silent.
  - injection G as <-. now contradiction C.
Qed.

(* ------------------------------------------------------------------ *)
(** *** Statuses *)

Lemma replies_ret {A} (P : Z -> Prop) (b : A) (st : Z) :
  P st -> replies P (ret (b, st)).
Proof. intros H s. exact H. Qed.

Lemma replies_bind {A B} (P : Z -> Prop) (m : M A) (k : A -> M (B * Z)) :
  (forall a, replies P (k a)) -> replies P (bind m k).
Proof.
  intros Hk s. unfold bind. destruct (m s) as [[a|e] s']; [apply Hk | exact I].
Qed.

Lemma replies_if {A} (P : Z -> Prop) (b : bool) (m1 m2 : M (A * Z)) :
  replies P m1 -> replies P m2 -> replies P (if b then m1 else m2).
Proof. now destruct b. Qed.

Lemma replies_render (P : Z -> Prop) name ctx :
  P 200%Z -> replies P (render E name ctx).
Proof.
  intros H s. unfold render, bind, lift, ret.
  now destruct (render_template E name ctx).
Qed.

Lemma answers_try {A} (P : Z -> Prop) (body : M (A * Z)) (b500 : exn -> A) :
  replies P body -> P 500%Z ->
  answers P (try_except body (fun e => ret (b500 e, 500%Z))).
Proof.
  intros Hb H500 s. unfold try_except. specialize (Hb s).
  destruct (body s) as [[[b st]|e] s']; simpl in *; eauto.
Qed.

Ltac statuses :=
  repeat first
    [ apply replies_if
    | apply replies_render; unfold page_status; tauto
    | apply replies_ret; unfold page_status; tauto
    | apply replies_bind; intro ].

Lemma pages_answer (c : string) :
  answers page_status (show_weather_page E c) /\
  answers page_status (today_weather E c) /\
  answers page_status (hourly_weather E c) /\
  answers page_status (daily_weather E c).
Proof.
  unfold show_weather_page, today_weather, hourly_weather, daily_weather.
  repeat split; (apply answers_try; [statuses | unfold page_status; tauto]).
Qed.

Lemma serve_answered (v : M Reply) (s : State) (b : Body) (st : Z) :
  fst (v s) = Ok (b, st) ->
  flask (bind v (fun x => ret (Replied x)) s) = (Replied (b, st), snd (v s)).
Proof.
  unfold flask, bind, ret. destruct (v s) as [[r|e] s']; simpl; [|discriminate].
  now intros [= ->].
Qed.

Lemma api_weather_200_row_or_failure (p : option json) (s : State) :
  let a := fst (flask (bind (api_weather E p) (fun x => ret (Replied x)) s)) in
  status_of a = 200%Z \/ status_of a = 302%Z \/ status_of a = 400%Z \/
  status_of a = 404%Z \/ status_of a = 500%Z.
Proof.
  pose proof (api_weather_outcome p s) as H. unfold dispatch in H.
  cbv zeta. unfold flask, bind, ret.
  destruct (api_weather E p s) as [[[b st]|e] s']; simpl in *.
  - destruct H as [[_ H] | (c & t & d & x & y & H & _)].
    + tauto.
    + injection H as _ ->. now left.
  - destruct e; simpl; auto 6.
Qed.

(** X19: of the requests that reach a view (those that match a route and
    one of its methods), the pages for a city (current, today, hourly,
    daily, weekly) never let an exception escape and answer 200, 404 or 500
    only; the form page and [POST /api/weather] may also answer 302 and
    400, and no view answers with any other status.  What Flask answers
    when no route or no method matches is not part of this. *)
Theorem request_status (r : Request) (s : State) :
  (forall c, r = ShowWeatherPage c \/ r = TodayWeather c \/
             r = HourlyWeather c \/ r = DailyWeather c \/
             r = WeeklyWeather c ->
             page_status (status_of (fst (serve E r s)))) /\
  (status_of (fst (serve E r s)) = 200%Z \/
   status_of (fst (serve E r s)) = 302%Z \/
   status_of (fst (serve E r s)) = 400%Z \/
   status_of (fst (serve E r s)) = 404%Z \/
   status_of (fst (serve E r s)) = 500%Z).
Proof.
  assert (Hp : forall v : M Reply, answers page_status v ->
            page_status
              (status_of (fst (flask (bind v (fun x => ret (Replied x)) s))))).
  { intros v Hv. destruct (Hv s) as (b & st & Hr & Hst).
    now rewrite (serve_answered v s b st Hr). }
  destruct r as [m f|p|c|c|c|c|c|]; unfold serve, view_of.
  - split; [intros c [H|[H|[H|[H|H]]]]; discriminate|].
    unfold flask, index, render, bind, lift, ret.
    destruct (String.eqb m "POST"); [destruct (negb _)|]; simpl; auto;
      destruct (render_template E "main.html" []) as [h|[]]; simpl; auto 6.
  - split; [intros c [H|[H|[H|[H|H]]]]; discriminate|].
    pose proof (api_weather_200_row_or_failure p s) as H. exact H.
  - pose proof (Hp _ (proj1 (pages_answer c))) as H.
    split; [intros _ _; exact H|]. unfold page_status in H. tauto.
  - pose proof (Hp _ (proj1 (proj2 (pages_answer c)))) as H.
    split; [intros _ _; exact H|]. unfold page_status in H. tauto.
  - pose proof (Hp _ (proj1 (proj2 (proj2 (pages_answer c))))) as H.
    split; [intros _ _; exact H|]. unfold page_status in H. tauto.
  - pose proof (Hp _ (proj2 (proj2 (proj2 (pages_answer c))))) as H.
    split; [intros _ _; exact H|]. unfold page_status in H. tauto.
  - pose proof (Hp _ (proj2 (proj2 (proj2 (pages_answer c))))) as H.
    split; [intros _ _; exact H|]. unfold page_status in H. tauto.
  - split; [intros c [H|[H|[H|[H|H]]]]; discriminate|]. now left.
Qed.

(** X20: the hourly view at the edges of its input: without [list] it
    renders an empty table, a [list] that is a string is cut to its first
    eight characters, and a [list] that is [null], a boolean or a number
    cannot be sliced: the view answers 500 with the [TypeError]. *)
Theorem hourly_weather_edges (s : State) (city : string) (resp : Response)
    (kv : list (string * json)) :
  requests_get E forecast_url (query E city) 8 = Ok resp ->
  status_code resp = 200%Z ->
  resp_json resp = Ok (JObj kv) ->
  (lookup "list" kv = None ->
   dispatch (hourly_weather E city) s =
     (rendered E "hourly.html" [("city", JStr city); ("data", JArr [])],
      logged E forecast_url city s)) /\
  (forall str, lookup "list" kv = Some (JStr str) ->
   dispatch (hourly_weather E city) s =
     (rendered E "hourly.html"
        [("city", JStr city); ("data", JStr (substring 0 8 str))],
      logged E forecast_url city s)) /\
  (forall v, lookup "list" kv = Some v ->
   v = JNull \/ (exists b, v = JBool b) \/ (exists z, v = JInt z) \/
   (exists q, v = JFloat q) ->
   dispatch (hourly_weather E city) s =
     ((Text ("Error: " ++ str_exn E TypeError), 500%Z),
      logged E forecast_url city s)).
Proof.
  intros Hget Hst Hjs. split; [|split].
  - intro Hl. step_view. rewrite Hget, Hst. simpl. rewrite Hjs. simpl.
    rewrite Hl. simpl.
    now destruct (render_template E "hourly.html" _).
  - intros str Hl. step_view. rewrite Hget, Hst. simpl. rewrite Hjs. simpl.
    rewrite Hl. simpl.
    now destruct (render_template E "hourly.html" _).
  - intros v Hl Hv. step_view. rewrite Hget, Hst. simpl. rewrite Hjs. simpl.
    rewrite Hl.
    destruct Hv as [-> | [(b & ->) | [(z & ->) | (q & ->)]]]; reflexivity.
Qed.

End RequestFacts.

(* ================================================================== *)
(** ** Sequences of requests *)

Lemma run_app (t1 t2 : list (Env * Request)) (s : State) :
  run (t1 ++ t2) s = run t2 (run t1 s).
Proof.
  revert s. induction t1 as [|[E r] t1 IH]; intro s; simpl; [reflexivity|].
  apply IH.
Qed.

(** X18: whatever the requests and the answers of the provider, the table
    is an append-only log: after a sequence of requests it is the table
    before followed by at most one new row per request, the primary key and
    the insertion order are kept, at most one provider call per request was
    made, and on a table in insertion order the history lists the last six
    rows, the latest first. *)
Theorem run_append_only_log (trace : list (Env * Request)) (s : State) :
  (exists new, weather (db (run trace s)) = weather (db s) ++ new /\
               (List.length new <= List.length trace)%nat) /\
  (exists calls, sent (run trace s) = sent s ++ calls /\
                 (List.length calls <= List.length trace)%nat) /\
  (primary_key (db s) -> primary_key (db (run trace s))) /\
  (append_only (db s) ->
   append_only (db (run trace s)) /\
   select_recent 6 (db (run trace s)) =
     firstn 6 (rev (weather (db (run trace s))))).
Proof.
  revert s. induction trace as [|[E r] trace IH]; intro s; simpl.
  - split; [exists []; rewrite app_nil_r; auto|].
    split; [exists []; rewrite app_nil_r; auto|].
    split; [auto|]. intro H. split; [assumption|].
    unfold select_recent. destruct H as [H _].
    now rewrite order_by_id_desc_rev.
  - destruct (IH (snd (serve E r s)))
      as ((new & Hnew & Ln) & (calls & Hcalls & Lc) & Hpk & Hao).
    pose proof (serve_at_most_one_row E r s) as Hrow.
    pose proof (view_calls E r s) as Hcall.
    rewrite <- serve_state in Hcall.
    split; [|split; [|split]].
    + destruct Hrow as [Hrow | (c & t & d & stamp & Hrow)];
        rewrite Hrow in Hnew.
      * exists new. split; [assumption | lia].
      * simpl in Hnew. rewrite <- app_assoc in Hnew.
        eexists. split; [exact Hnew|]. simpl. lia.
    + destruct Hcall as [Hcall | (c & _ & Hcall)]; rewrite Hcall in Hcalls.
      * exists calls. split; [assumption | lia].
      * rewrite <- app_assoc in Hcalls.
        eexists. split; [exact Hcalls|]. simpl. lia.
    + intro H. apply Hpk.
      destruct Hrow as [-> | (c & t & d & stamp & ->)];
        [assumption | now apply with_row_primary_key].
    + intro H. apply Hao.
      destruct Hrow as [-> | (c & t & d & stamp & ->)];
        [assumption | now apply with_row_append_only].
Qed.

(* ================================================================== *)
(** ** More runs on explicit inputs *)


Lemma show_weather_page_stores_then_renders_witness :
  fst (dispatch (show_weather_page (env_broken_templates (ok200 clear_sky))
                   "Oslo") fresh) = (Text "Error: error", 500%Z) /\
  db (snd (dispatch (show_weather_page (env_broken_templates (ok200 clear_sky))
                       "Oslo") fresh)) <> db fresh.
Proof.
  apply (proj2 (show_weather_page_stores_then_renders
                  (env_broken_templates (ok200 clear_sky)) fresh "Oslo" _
                  _ _ _ _ _ _ (SqlReal (21 # 2)) (SqlText "clear sky")
                  eq_refl eq_refl eq_refl eq_refl eq_refl eq_refl eq_refl
                  eq_refl eq_refl)
          (TemplateError "result.html")).
  reflexivity.
Defined.

Lemma show_weather_page_requires_fields_witness :
  dispatch (show_weather_page (env_answering (ok200 (JObj []))) "Oslo") fresh =
    ((Text "Error: error", 500%Z),
     logged (env_answering (ok200 (JObj []))) weather_url "Oslo" fresh).
Proof.
  apply (proj1 (show_weather_page_requires_fields
                  (env_answering (ok200 (JObj []))) fresh "Oslo" _ []
                  eq_refl eq_refl eq_refl)).
  reflexivity.
Defined.

Lemma undecodable_answer_500_witness :
  status_code undecodable = 200%Z /\
  dispatch (daily_weather (env_answering (Ok undecodable)) "Oslo") fresh =
    ((Text "Error: error", 500%Z),
     logged (env_answering (Ok undecodable)) forecast_url "Oslo" fresh).
Proof.
  split; [reflexivity|].
  apply (proj2 (proj2 (undecodable_answer_500
                         (env_answering (Ok undecodable)) fresh "Oslo"
                         undecodable JSONDecodeError eq_refl eq_refl)
                 eq_refl)).
Defined.

Lemma today_weather_defaults_witness :
  dispatch (today_weather (env_answering (ok200 (JObj []))) "Oslo") fresh =
    ((Text "today.html", 200%Z),
     logged (env_answering (ok200 (JObj []))) weather_url "Oslo" fresh).
Proof.
  apply (proj1 (today_weather_defaults (env_answering (ok200 (JObj []))) fresh
                  "Oslo" _ [] eq_refl eq_refl eq_refl eq_refl eq_refl)).
Defined.

Lemma daily_weather_renders_summaries_witness :
  dispatch (daily_weather
              (env_answering (ok200 (JObj [("list", JArr forecast_example)])))
              "Oslo") fresh =
    ((Text "daily.html", 200%Z),
     logged (env_answering (ok200 (JObj [("list", JArr forecast_example)])))
            forecast_url "Oslo" fresh).
Proof.
  apply (daily_weather_renders_summaries
           (env_answering (ok200 (JObj [("list", JArr forecast_example)])))
           fresh "Oslo" _ [("list", JArr forecast_example)] forecast_example
           eq_refl eq_refl eq_refl).
  left. reflexivity.
Defined.

Lemma hourly_weather_edges_witness :
  dispatch (hourly_weather (env_answering (ok200 (JObj [("list", JNull)])))
              "Oslo") fresh =
    ((Text "Error: error", 500%Z),
     logged (env_answering (ok200 (JObj [("list", JNull)]))) forecast_url
            "Oslo" fresh).
Proof.
  apply (proj2 (proj2 (hourly_weather_edges
                         (env_answering (ok200 (JObj [("list", JNull)])))
                         fresh "Oslo" _ [("list", JNull)]
                         eq_refl eq_refl eq_refl)) JNull eq_refl).
  left. reflexivity.
Defined.

(* ================================================================== *)
(** ** The dates of the summaries *)

Lemma one_word_snoc (cur : string) (c : ascii) :
  one_word cur -> py_isspace c = false ->
  one_word (cur ++ String c "").
Proof.
  unfold one_word. induction cur as [|b cur IH]; simpl; intros H Hc.
  - repeat constructor. exact Hc.
  - inversion H; subst. constructor; auto.
Qed.

Lemma split_ws_words (s : string) :
  forall cur, one_word cur ->
    Forall (fun w => w <> "" /\ one_word w) (split_ws cur s).
Proof.
  induction s as [|c r IH]; intros cur Hcur; simpl.
  - destruct (String.eqb cur "") eqn:C; constructor; [|constructor].
    apply String.eqb_neq in C. auto.
  - destruct (py_isspace c) eqn:S.
    + destruct (String.eqb cur "") eqn:C.
      * apply IH. constructor.
      * apply String.eqb_neq in C. constructor; [auto|].
        apply IH. constructor.
    + apply IH. now apply one_word_snoc.
Qed.

Lemma item_date_word (item : json) (d : string) :
  item_date item = Ok d -> d <> "" /\ one_word d.
Proof.
  unfold item_date.
  destruct (py_getitem item "dt_txt") as [[]|]; simpl; try discriminate.
  unfold str_split. pose proof (split_ws_words s "") as H.
  destruct (split_ws "" s) as [|w ws]; simpl; [discriminate|].
  intros [= <-]. assert (Hw : one_word "") by constructor.
  specialize (H Hw). now inversion H.
Qed.

Lemma sample_dates_In (raw : list json) (d : string) :
  In d (sample_dates raw) <-> exists i, In i raw /\ item_date i = Ok d.
Proof.
  unfold sample_dates. rewrite in_flat_map. split.
  - intros (i & Hi & Hd). exists i. split; [assumption|].
    destruct (item_date i) as [d'|]; [|contradiction].
    destruct Hd as [->|[]]. reflexivity.
  - intros (i & Hi & Hd). exists i. split; [assumption|].
    rewrite Hd. now left.
Qed.

(** X21: on any decoded JSON on which the aggregation returns, the date of
    a summary is a word of some entry's [dt_txt]: it is not empty, it holds
    no white space, and an entry of the input has it as its date. *)
Theorem daily_dates_are_words (raw : list json) (out : list DailySummary)
    (s : DailySummary) :
  daily_list raw = Ok out -> In s out ->
  date s <> "" /\ one_word (date s) /\
  exists i, In i raw /\ item_date i = Ok (date s).
Proof.
  intros Hout Hs. destruct (daily_list_dates raw out Hout) as (Hd & _).
  assert (Hin : In (date s) (sample_dates raw)).
  { apply first_seen_In. rewrite <- Hd. now apply in_map. }
  apply sample_dates_In in Hin. destruct Hin as (i & Hi & Hdi).
  destruct (item_date_word i _ Hdi). eauto.
Qed.

Lemma daily_dates_are_words_witness :
  "01-01" <> "" /\ one_word "01-01" /\
  exists i, In i forecast_example_timed /\ item_date i = Ok "01-01".
Proof.
  apply (daily_dates_are_words forecast_example_timed _
           {| date := "01-01"; t_min := JInt 10; t_max := JInt 15 |} eq_refl).
  left. reflexivity.
Defined.
